(** * Testset generation orchestration (ragas/testset/generator.py)

    A shallow embedding of [TestsetGenerator] and of the collaborators it
    drives, followed by the properties of [generate], [init_evolution],
    [adapt] and [save].

    Python floats are IEEE 754 binary64 values ([spec_float] at precision
    53, [emax] 1024), Python ints are [Z].  Mutable strategy objects live
    in a store indexed by reference; every call on an external
    collaborator (document store, extractor, executor, telemetry) is
    recorded as an event. *)

From Stdlib Require Import ZArith QArith Qabs Ascii.
From Stdlib Require Import Floats.SpecFloat.
From stdpp Require Import gmap strings list pretty.

Local Open Scope Z_scope.

(** ** Python numbers *)

Definition float : Type := spec_float.

Definition prec : Z := 53.
Definition emax : Z := 1024.

Definition float_mul : float -> float -> float := SFmul prec emax.
Definition float_add : float -> float -> float := SFadd prec emax.
Definition float_div : float -> float -> float := SFdiv prec emax.

(** The binary64 value nearest to [m * 2^e] (ties to even). *)
Definition float_of_scaled (m e : Z) : float := binary_normalize prec emax m e false.

(** A decimal literal [p/q] as Python reads it: the nearest binary64. *)
Definition float_lit (p q : Z) : float :=
  float_div (float_of_scaled p 0) (float_of_scaled q 0).

(** An exception message: literal text with the numbers formatted into it. *)
Inductive piece : Type :=
  | text (s : string)
  | number (x : Z + float).

Definition message : Type := list piece.

Inductive exn : Type :=
  | ValueError (msg : message)
  | OverflowError (msg : message)
  | IndexError (msg : message)
  | AssertionError (msg : message)
  | Exception (msg : message).

Inductive outcome (A : Type) : Type :=
  | Ok (a : A)
  | Raise (e : exn).
Arguments Ok {A} a.
Arguments Raise {A} e.

(** [float(n)] for a Python int: the nearest binary64, or [OverflowError]. *)
Definition int_to_float (n : Z) : outcome float :=
  match float_of_scaled n 0 with
  | S754_infinity _ => Raise (OverflowError [text "int too large to convert to float"])
  | f => Ok f
  end.

(** [x * n] for a float [x] and an int [n]. *)
Definition float_mul_int (x : float) (n : Z) : outcome float :=
  match int_to_float n with
  | Ok f => Ok (float_mul x f)
  | Raise e => Raise e
  end.

(** Nearest integer to [m / 2^k], ties to even ([m], [k] positive). *)
Definition round_half_even_shift (m : positive) (k : positive) : Z :=
  let d := Z.pow_pos 2 k in
  let q := Z.pos m / d in
  let r := Z.pos m mod d in
  match 2 * r ?= d with
  | Lt => q
  | Gt => q + 1
  | Eq => if Z.even q then q else q + 1
  end.

(** [round(x)] for a float [x]: an int, rounding halves to even. *)
Definition round (x : float) : outcome Z :=
  match x with
  | S754_zero _ => Ok 0
  | S754_nan => Raise (ValueError [text "cannot convert float NaN to integer"])
  | S754_infinity _ => Raise (OverflowError [text "cannot convert float infinity to integer"])
  | S754_finite s m e =>
      let a := match e with
               | Z0 => Z.pos m
               | Z.pos k => Z.pos m * Z.pow_pos 2 k
               | Z.neg k => round_half_even_shift m k
               end in
      Ok (if s then - a else a)
  end.

(** [sum(values)] for a list of floats: the int [0] when the list is
    empty, otherwise the floats added left to right starting from [0]. *)
Definition sum (values : list float) : Z + float :=
  match values with
  | [] => inl 0
  | _ => inr (fold_left float_add values (S754_zero false))
  end.

(** The exact rational value of a finite float. *)
Definition float_to_Q (x : float) : option Q :=
  match x with
  | S754_zero _ => Some 0%Q
  | S754_finite s m e =>
      Some (inject_Z (if s then Z.neg m else Z.pos m) * Qpower 2 e)%Q
  | _ => None
  end.

Definition number_to_Q (x : Z + float) : option Q :=
  match x with
  | inl n => Some (inject_Z n)
  | inr f => float_to_Q f
  end.

(** Modelled from the spec: [ragas.utils.check_if_sum_is_close] is imported
    by the generator but defined outside it.  The sum of [values] is
    compared with [close_to] within a tolerance of [num_places] decimal
    places: it passes when the two differ by at most [10^-num_places]. *)
Definition check_if_sum_is_close (values : list float) (close_to : float)
    (num_places : Z) : bool :=
  match number_to_Q (sum values), float_to_Q close_to with
  | Some s, Some c => Qle_bool (Qabs (s - c)) (Qpower 10 (- num_places))
  | _, _ => false
  end.

Definition f1_0 : float := float_of_scaled 1 0.
Definition f0_5 : float := float_of_scaled 1 (-1).
Definition f0_25 : float := float_of_scaled 1 (-2).

(** ** Data model

    The collaborators' types are declared in other modules of the package;
    each is given the fields and constructors the generator uses. *)

Definition LLM : Type := string.
Definition Embeddings : Type := string.
Definition Node : Type := nat.

Record RunConfig : Type := { max_retries : Z; max_wait : Z }.

Variant QuestionFilter : Type := new_QuestionFilter (llm : LLM).
Variant NodeFilter : Type := new_NodeFilter (llm : LLM).
Variant EvolutionFilter : Type := new_EvolutionFilter (llm : LLM).
Variant keyphraseExtractor : Type := new_keyphraseExtractor (llm : LLM).

(** The document store as the generator sees it: whether it is an
    [InMemoryDocumentStore], and its extractor. *)
Record DocumentStore : Type := {
  is_InMemoryDocumentStore : bool;
  extractor : option keyphraseExtractor
}.

Variant LlamaindexDocument : Type := new_LlamaindexDocument (content : string).
Variant LCDocument : Type := new_LCDocument (page_content : string).

Variant Document : Type :=
  | from_llamaindex_document (doc : LlamaindexDocument)
  | from_langchain_document (doc : LCDocument).

Record CurrentNodes : Type := { root_node : Node; nodes : list Node }.

(** Modelled from the spec: [DataRow] is declared in
    [ragas.testset.evolutions]; a row holds the question text, the
    generated answer, the contexts used, and metadata. *)
Record DataRow : Type := {
  question : string;
  answer : string;
  contexts : list string;
  metadata : list (string * string)
}.

(** What a finished job hands back: a row, or the NaN sentinel. *)
Variant value : Type :=
  | Row (r : DataRow)
  | NaN.

(** Modelled from the spec: [ragas.utils.is_nan] recognises the sentinel
    "empty" result, and nothing else. *)
Definition is_nan (r : value) : bool :=
  match r with
  | NaN => true
  | Row _ => false
  end.

Module Evolution.
(** A strategy object. [is_ComplexEvolution] is
    [isinstance(evolution, ComplexEvolution)]; [class_name] is
    [evolution.__class__.__name__]. *)
Record t : Type := {
  class_name : string;
  is_ComplexEvolution : bool;
  generator_llm : option LLM;
  docstore : option DocumentStore;
  question_filter : option QuestionFilter;
  node_filter : option NodeFilter;
  evolution_filter : option EvolutionFilter
}.
End Evolution.

(** A reference to a strategy object in the store. *)
Definition evolution_ref : Type := nat.

Definition Distributions : Type := list (evolution_ref * float).

(** The module-level strategy objects of [ragas.testset.evolutions]. *)
Definition simple : evolution_ref := 0%nat.
Definition reasoning : evolution_ref := 1%nat.
Definition multi_context : evolution_ref := 2%nat.

Definition DEFAULT_DISTRIBUTION : Distributions :=
  [(simple, float_lit 5 10); (reasoning, float_lit 25 100);
   (multi_context, float_lit 25 100)].

(** A submitted job: [evolution.evolve] applied to one CurrentNodes
    object.  [job_seed] is the identity of that object, which is its
    position in the list [current_nodes] that created it. *)
Record Job : Type := {
  job_evolution : evolution_ref;
  job_seed : nat;
  job_current_nodes : CurrentNodes;
  job_name : string
}.

Record TesetGenerationEvent : Type := {
  event_type : string;
  evolution_names : list string;
  evolution_percentages : list float;
  num_rows : nat
}.

(** Calls on external collaborators, in the order they are made. *)
Inductive event : Type :=
  | docstore_add_documents (docs : list Document)
  | docstore_set_run_config (run_config : RunConfig)
  | docstore_get_random_nodes (k : Z)
  | evolution_init (evolution : evolution_ref) (is_async : option bool)
      (run_config : option RunConfig)
  | evolution_adapt (evolution : evolution_ref) (language : string)
      (cache_dir : option string)
  | evolution_save (evolution : evolution_ref) (cache_dir : option string)
  | extractor_adapt (language : string) (cache_dir : option string)
  | extractor_save (cache_dir : option string)
  | patch_logger (module : string) (level : Z)
  | exec_submit (job : Job)
  | exec_results
  | track (ev : TesetGenerationEvent).

Record TestDataset : Type := { test_data : list value }.

(** ** Effects

    A computation reads and updates the store of strategy objects, emits
    the collaborator calls it makes, and returns or raises. *)

#[global] Instance Evolution_inhabited : Inhabited Evolution.t :=
  populate (Evolution.Build_t "" false None None None None None).

Abbreviation store := (gmap evolution_ref Evolution.t).

Definition M (A : Type) : Type := store -> outcome A * store * list event.

Definition ret {A} (a : A) : M A := fun st => (Ok a, st, []).

Definition bind {A B} (m : M A) (k : A -> M B) : M B :=
  fun st =>
    match m st with
    | (Ok a, st1, t1) =>
        let '(r, st2, t2) := k a st1 in (r, st2, t1 ++ t2)
    | (Raise e, st1, t1) => (Raise e, st1, t1)
    end.

#[global] Instance M_ret : MRet M := @ret.
#[global] Instance M_bind : MBind M := fun A B k m => bind m k.

Definition raise {A} (e : exn) : M A := fun st => (Raise e, st, []).
Definition emit (ev : event) : M unit := fun st => (Ok tt, st, [ev]).
Definition lift {A} (o : outcome A) : M A := fun st => (o, st, []).
Definition get_evolution (r : evolution_ref) : M Evolution.t :=
  fun st => (Ok (st !!! r), st, []).
Definition update_evolution (f : Evolution.t -> Evolution.t) (r : evolution_ref) : M unit :=
  fun st => (Ok tt, alter f r st, []).

(** [for x in xs: body], threading the loop's local variables [s]. *)
Fixpoint for_each {A S} (xs : list A) (body : A -> S -> M S) (s : S) : M S :=
  match xs with
  | [] => mret s
  | x :: xs' => s' ← body x s; for_each xs' body s'
  end.

(** [range(n)] for an int [n]. *)
Definition range (n : Z) : list nat := seq 0 (Z.to_nat n).

(** [xs[i]] for a non-negative index. *)
Definition index {A} (xs : list A) (i : nat) : M A :=
  match xs !! i with
  | Some x => mret x
  | None => raise (IndexError [text "list index out of range"])
  end.

(** ASCII [str.lower]. *)
Definition lower_ascii (c : ascii) : ascii :=
  let n := nat_of_ascii c in
  if (65 <=? n)%nat && (n <=? 90)%nat then ascii_of_nat (n + 32) else c.

Fixpoint lower (s : string) : string :=
  match s with
  | EmptyString => EmptyString
  | String c s' => String (lower_ascii c) (lower s')
  end.

(** ** The world around the generator *)

Variant job_outcome : Type :=
  | Returns (v : value)
  | Fails (e : exn).

(** What the collaborators answer during one call.
    - [get_random_nodes k] is [docstore.get_random_nodes(k)];
    - [random j] decides the [j]-th draw of [random.choices]: on a
      population of [n] elements it picks position [random j mod n];
    - [evolve j job] is how the [j]-th submitted job ends once its retries
      are spent: with a value, or with an unrecoverable error. *)
Record Env : Type := {
  get_random_nodes : Z -> outcome (list Node);
  random : nat -> nat;
  evolve : nat -> Job -> job_outcome
}.

(** [random.choices(population, k=k)]. *)
Definition choices {A} (env : Env) (population : list A) (k : Z) : M (list A) :=
  for_each (range k)
    (fun j picked =>
       x ← index population (random env j mod length population)%nat;
       mret (picked ++ [x]))
    [].

(** ** Executor *)

Module Executor.
(** Modelled from the spec: [ragas.executor.Executor] is defined outside
    the generator.  It is built from a description, a progress-bar flag
    and the failure policy, and holds the jobs submitted so far. *)
Record t : Type := {
  desc : string;
  keep_progress_bar : bool;
  raise_exceptions : bool;
  jobs : list Job
}.

(** Modelled from the spec: [Executor.submit] enqueues a named job without
    running it, and keeps submission order. *)
Definition submit (exec : t) (job : Job) : M t :=
  emit (exec_submit job);;
  mret {| desc := desc exec; keep_progress_bar := keep_progress_bar exec;
          raise_exceptions := raise_exceptions exec;
          jobs := jobs exec ++ [job] |}.

(** Modelled from the spec: what [Executor.results] computes.  Every job
    is run; the results come back in submission order; a job that
    exhausts its retries yields the NaN sentinel, unless the executor is
    configured to raise, in which case the first unrecoverable failure
    aborts with the underlying error.  [j] is the position of the first
    job of [jobs] among all submitted jobs. *)
Fixpoint run (env : Env) (raise_exceptions : bool) (j : nat) (jobs : list Job)
    : outcome (list value) :=
  match jobs with
  | [] => Ok []
  | job :: jobs' =>
      match evolve env j job with
      | Returns v =>
          match run env raise_exceptions (S j) jobs' with
          | Ok vs => Ok (v :: vs)
          | Raise e => Raise e
          end
      | Fails e =>
          if raise_exceptions then Raise e
          else match run env raise_exceptions (S j) jobs' with
               | Ok vs => Ok (NaN :: vs)
               | Raise e' => Raise e'
               end
      end
  end.

(** Modelled from the spec: [Executor.results], on the jobs submitted so far. *)
Definition results (env : Env) (exec : t) : M (list value) :=
  emit exec_results;;
  lift (run env (raise_exceptions exec) 0 (jobs exec)).
End Executor.

(** ** Strategy methods *)

Module EvolutionMethods.
Import Evolution.

(** A filter the strategy needs is unset: the node filter, the question
    filter or, for a composite kind, the evolution filter. *)
Definition filters_unset (e : Evolution.t) : bool :=
  match node_filter e, question_filter e with
  | Some _, Some _ =>
      if is_ComplexEvolution e
      then match evolution_filter e with Some _ => false | None => true end
      else false
  | _, _ => true
  end.

(** Modelled from the spec: [Evolution.init] is defined in
    [ragas.testset.evolutions]; it prepares the strategy's async and retry
    behaviour. *)
Definition init (evolution : evolution_ref) (is_async : option bool)
    (run_config : option RunConfig) : M unit :=
  emit (evolution_init evolution is_async run_config).

(** Modelled from the spec: [Evolution.adapt] is defined in
    [ragas.testset.evolutions]; on a strategy whose filters are unset it is
    a precondition error. *)
Definition adapt (evolution : evolution_ref) (language : string)
    (cache_dir : option string) : M unit :=
  e ← get_evolution evolution;
  if filters_unset e then raise (AssertionError [text "filter cannot be None"])
  else emit (evolution_adapt evolution language cache_dir).

(** Modelled from the spec: [Evolution.save] is defined in
    [ragas.testset.evolutions]; on a strategy whose filters are unset it is
    a precondition error. *)
Definition save (evolution : evolution_ref) (cache_dir : option string) : M unit :=
  e ← get_evolution evolution;
  if filters_unset e then raise (AssertionError [text "filter cannot be None"])
  else emit (evolution_save evolution cache_dir).
End EvolutionMethods.

(** ** TestsetGenerator *)

Module TestsetGenerator.
Record t : Type := {
  generator_llm : LLM;
  critic_llm : LLM;
  embeddings : Embeddings;
  docstore : DocumentStore
}.

(** The field updates of [init_evolution] on one strategy object. *)
Definition init_evolution_fields (self : t) (evolution : Evolution.t) : Evolution.t :=
  match Evolution.generator_llm evolution with
  | None =>
      {| Evolution.class_name := Evolution.class_name evolution;
         Evolution.is_ComplexEvolution := Evolution.is_ComplexEvolution evolution;
         Evolution.generator_llm := Some (generator_llm self);
         Evolution.docstore :=
           match Evolution.docstore evolution with
           | None => Some (docstore self)
           | Some d => Some d
           end;
         Evolution.question_filter :=
           match Evolution.question_filter evolution with
           | None => Some (new_QuestionFilter (critic_llm self))
           | Some f => Some f
           end;
         Evolution.node_filter :=
           match Evolution.node_filter evolution with
           | None => Some (new_NodeFilter (critic_llm self))
           | Some f => Some f
           end;
         Evolution.evolution_filter :=
           if Evolution.is_ComplexEvolution evolution then
             match Evolution.evolution_filter evolution with
             | None => Some (new_EvolutionFilter (critic_llm self))
             | Some f => Some f
             end
           else Evolution.evolution_filter evolution |}
  | Some _ => evolution
  end.

Definition init_evolution (self : t) (evolution : evolution_ref) : M unit :=
  update_evolution (init_evolution_fields self) evolution.

Definition keys (distributions : Distributions) : list evolution_ref :=
  map fst distributions.
Definition values (distributions : Distributions) : list float :=
  map snd distributions.

Definition job_for (evolution : evolution_ref) (e : Evolution.t)
    (i : nat) (cn : CurrentNodes) : Job :=
  {| job_evolution := evolution; job_seed := i; job_current_nodes := cn;
     job_name := Evolution.class_name e +:+ "-" +:+ pretty i |}.

(** [exec.submit(evolution.evolve, current_nodes[i],
    name=f"{evolution.__class__.__name__}-{i}")]. *)
Definition submit_evolve (current_nodes : list CurrentNodes)
    (evolution : evolution_ref) (i : nat) (exec : Executor.t) : M Executor.t :=
  cn ← index current_nodes i;
  e ← get_evolution evolution;
  Executor.submit exec (job_for evolution e i cn).

(** The partition loop of [generate]: one batch of jobs per strategy. *)
Definition partition_pass (test_size : Z) (distributions : Distributions)
    (current_nodes : list CurrentNodes) (exec : Executor.t)
    : M (Executor.t * nat) :=
  for_each distributions
    (fun '(evolution, probability) '(exec, total_evolutions) =>
       x ← lift (float_mul_int probability test_size);
       n ← lift (round x);
       for_each (range n)
         (fun i '(exec, total_evolutions) =>
            exec ← submit_evolve current_nodes evolution i exec;
            mret (exec, S total_evolutions))
         (exec, total_evolutions))
    (exec, 0%nat).

(** The filler loop of [generate], run when the partition did not
    exceed [test_size]. *)
Definition filler_pass (env : Env) (test_size : Z) (distributions : Distributions)
    (current_nodes : list CurrentNodes) (exec : Executor.t)
    (total_evolutions : nat) : M (Executor.t * nat) :=
  if Z.of_nat total_evolutions <=? test_size then
    filler_evolutions ←
      choices env (keys distributions) (test_size - Z.of_nat total_evolutions);
    for_each filler_evolutions
      (fun evolution '(exec, total_evolutions) =>
         exec ← submit_evolve current_nodes evolution total_evolutions exec;
         mret (exec, S total_evolutions))
      (exec, total_evolutions)
  else mret (exec, total_evolutions).

Definition DEBUG : Z := 10.

Definition generate (env : Env) (self : t) (test_size : Z)
    (distributions : option Distributions) (with_debugging_logs : option bool)
    (is_async : option bool) (raise_exceptions : option bool)
    (run_config : option RunConfig) : M TestDataset :=
  let distributions := default DEFAULT_DISTRIBUTION distributions in
  let with_debugging_logs := default false with_debugging_logs in
  let is_async := default true is_async in
  let raise_exceptions := default true raise_exceptions in
  if negb (check_if_sum_is_close (values distributions) f1_0 3) then
    raise (ValueError [text "distributions passed do not sum to 1.0 [got ";
                       number (sum (values distributions));
                       text "]. Please check the distributions."])
  else
    let run_config := default {| max_retries := 15; max_wait := 90 |} run_config in
    emit (docstore_set_run_config run_config);;
    for_each (keys distributions)
      (fun evolution _ =>
         init_evolution self evolution;;
         EvolutionMethods.init evolution (Some is_async) (Some run_config))
      tt;;
    (if with_debugging_logs then
       emit (patch_logger "ragas.testset.evolutions" DEBUG);;
       emit (patch_logger "ragas.testset.extractor" DEBUG);;
       emit (patch_logger "ragas.testset.filters" DEBUG);;
       emit (patch_logger "ragas.testset.docstore" DEBUG);;
       emit (patch_logger "ragas.llms.prompt" DEBUG)
     else mret tt);;
    let exec := {| Executor.desc := "Generating";
                   Executor.keep_progress_bar := true;
                   Executor.raise_exceptions := raise_exceptions;
                   Executor.jobs := [] |} in
    emit (docstore_get_random_nodes test_size);;
    ns ← lift (get_random_nodes env test_size);
    let current_nodes := map (fun n => {| root_node := n; nodes := [n] |}) ns in
    '(exec, total_evolutions) ← partition_pass test_size distributions current_nodes exec;
    '(exec, total_evolutions) ←
      filler_pass env test_size distributions current_nodes exec total_evolutions;
    test_data_rows ← Executor.results env exec;
    let test_data_rows := List.filter (fun r => negb (is_nan r)) test_data_rows in
    let test_dataset := {| test_data := test_data_rows |} in
    names ← for_each (keys distributions)
               (fun evolution names =>
                  e ← get_evolution evolution;
                  mret (names ++ [lower (Evolution.class_name e)]))
               [];
    emit (track {| event_type := "testset_generation";
                   evolution_names := names;
                   evolution_percentages := values distributions;
                   num_rows := length (test_data test_dataset) |});;
    mret test_dataset.

Definition generate_with_llamaindex_docs (env : Env) (self : t)
    (documents : list LlamaindexDocument) (test_size : Z)
    (distributions : option Distributions) (with_debugging_logs : option bool)
    (is_async : option bool) (raise_exceptions : option bool)
    (run_config : option RunConfig) : M TestDataset :=
  let distributions := default [] distributions in
  let with_debugging_logs := default false with_debugging_logs in
  let is_async := default true is_async in
  let raise_exceptions := default true raise_exceptions in
  emit (docstore_add_documents (map from_llamaindex_document documents));;
  generate env self test_size (Some distributions) (Some with_debugging_logs)
    (Some is_async) (Some raise_exceptions) run_config.

Definition generate_with_langchain_docs (env : Env) (self : t)
    (documents : list LCDocument) (test_size : Z)
    (distributions : option Distributions) (with_debugging_logs : option bool)
    (is_async : option bool) (raise_exceptions : option bool)
    (run_config : option RunConfig) : M TestDataset :=
  let distributions := default [] distributions in
  let with_debugging_logs := default false with_debugging_logs in
  let is_async := default true is_async in
  let raise_exceptions := default true raise_exceptions in
  emit (docstore_add_documents (map from_langchain_document documents));;
  generate env self test_size (Some distributions) (Some with_debugging_logs)
    (Some is_async) (Some raise_exceptions) run_config.

Definition assert (b : bool) (msg : string) : M unit :=
  if b then mret tt else raise (AssertionError [text msg]).

Definition adapt (self : t) (language : string) (evolutions : list evolution_ref)
    (cache_dir : option string) : M unit :=
  assert (is_InMemoryDocumentStore (docstore self))
    "Must be an instance of in-memory docstore";;
  assert (bool_decide (is_Some (extractor (docstore self)))) "Extractor is not set";;
  emit (extractor_adapt language cache_dir);;
  for_each evolutions
    (fun evolution _ =>
       init_evolution self evolution;;
       EvolutionMethods.init evolution None None;;
       EvolutionMethods.adapt evolution language cache_dir)
    tt.

Definition save (self : t) (evolutions : list evolution_ref)
    (cache_dir : option string) : M unit :=
  assert (is_InMemoryDocumentStore (docstore self))
    "Must be an instance of in-memory docstore";;
  assert (bool_decide (is_Some (extractor (docstore self)))) "Extractor is not set";;
  emit (extractor_save cache_dir);;
  for_each evolutions
    (fun evolution _ =>
       e ← get_evolution evolution;
       assert (bool_decide (is_Some (Evolution.node_filter e))) "NodeFilter is not set";;
       assert (bool_decide (is_Some (Evolution.question_filter e)))
         "QuestionFilter is not set";;
       (if Evolution.is_ComplexEvolution e then
          assert (bool_decide (is_Some (Evolution.evolution_filter e)))
            "EvolutionFilter is not set"
        else mret tt);;
       EvolutionMethods.save evolution cache_dir)
    tt.
End TestsetGenerator.

(** ** Derived notions used to state the properties *)

#[global] Instance CurrentNodes_inhabited : Inhabited CurrentNodes :=
  populate {| root_node := 0%nat; nodes := [] |}.

(** The number of partition jobs of one strategy: [round(probability * test_size)]. *)
Definition job_count (probability : float) (test_size : Z) : outcome Z :=
  match float_mul_int probability test_size with
  | Ok x => round x
  | Raise e => Raise e
  end.

(** [counts] lists [round(probability * test_size)] for each entry, in mapping order. *)
Definition counts_of (test_size : Z) (distributions : Distributions) (counts : list Z) : Prop :=
  Forall2 (fun d n => job_count d.2 test_size = Ok n) distributions counts.

Definition total_count (counts : list Z) : nat :=
  foldr (fun n acc => (Z.to_nat n + acc)%nat) 0%nat counts.

(** Which strategy reads which seed position, in submission order. *)
Definition partition_plan (distributions : Distributions) (counts : list Z)
    : list (evolution_ref * nat) :=
  flat_map (fun dn => pair (dn.1.1) <$> range dn.2) (zip distributions counts).

Definition picks (env : Env) (population : list evolution_ref) (k : nat)
    : list evolution_ref :=
  (fun j => population !!! (random env j mod length population)%nat) <$> seq 0 k.

Definition filler_plan (env : Env) (test_size : Z) (distributions : Distributions)
    (total : nat) : list (evolution_ref * nat) :=
  if Z.of_nat total <=? test_size then
    let k := Z.to_nat (test_size - Z.of_nat total) in
    zip (picks env (TestsetGenerator.keys distributions) k) (seq total k)
  else [].

Definition plan_jobs (st : store) (current_nodes : list CurrentNodes)
    (plan : list (evolution_ref * nat)) : list Job :=
  (fun p => TestsetGenerator.job_for p.1 (st !!! p.1) p.2 (current_nodes !!! p.2)) <$> plan.

Definition add_jobs (exec : Executor.t) (js : list Job) : Executor.t :=
  {| Executor.desc := Executor.desc exec;
     Executor.keep_progress_bar := Executor.keep_progress_bar exec;
     Executor.raise_exceptions := Executor.raise_exceptions exec;
     Executor.jobs := Executor.jobs exec ++ js |}.

(** The jobs handed to the executor, read off the recorded calls. *)
Definition submitted (trace : list event) : list Job :=
  omap (fun ev => match ev with exec_submit job => Some job | _ => None end) trace.

Definition result_of {A} (r : outcome A * store * list event) : outcome A := r.1.1.
Definition store_of {A} (r : outcome A * store * list event) : store := r.1.2.
Definition trace_of {A} (r : outcome A * store * list event) : list event := r.2.

(** The store once every strategy of the mapping went through [init_evolution]. *)
Definition init_all (self : TestsetGenerator.t) (evolutions : list evolution_ref)
    (st : store) : store :=
  foldl (fun st r => alter (TestsetGenerator.init_evolution_fields self) r st) st evolutions.

Definition debug_trace (with_debugging_logs : bool) : list event :=
  if with_debugging_logs then
    [patch_logger "ragas.testset.evolutions" TestsetGenerator.DEBUG;
     patch_logger "ragas.testset.extractor" TestsetGenerator.DEBUG;
     patch_logger "ragas.testset.filters" TestsetGenerator.DEBUG;
     patch_logger "ragas.testset.docstore" TestsetGenerator.DEBUG;
     patch_logger "ragas.llms.prompt" TestsetGenerator.DEBUG]
  else [].

Definition resolve_run_config (run_config : option RunConfig) : RunConfig :=
  default {| max_retries := 15; max_wait := 90 |} run_config.

Definition seeds (ns : list Node) : list CurrentNodes :=
  map (fun n => {| root_node := n; nodes := [n] |}) ns.

(** Every job [generate] submits: the partition batches, then the fillers. *)
Definition generate_plan (env : Env) (test_size : Z) (d : Distributions)
    (counts : list Z) : list (evolution_ref * nat) :=
  partition_plan d counts ++ filler_plan env test_size d (total_count counts).

Definition generate_jobs (env : Env) (self : TestsetGenerator.t) (test_size : Z) (d : Distributions)
    (counts : list Z) (ns : list Node) (st : store) : list Job :=
  plan_jobs (init_all self (TestsetGenerator.keys d) st) (seeds ns)
    (generate_plan env test_size d counts).

(** Everything recorded up to and including the call of [exec.results()]. *)
Definition trace_to_results (env : Env) (self : TestsetGenerator.t) (test_size : Z)
    (d : Distributions)
    (with_debugging_logs is_async : bool) (run_config : RunConfig)
    (counts : list Z) (ns : list Node) (st : store) : list event :=
  [docstore_set_run_config run_config] ++
  ((fun r => evolution_init r (Some is_async) (Some run_config)) <$> TestsetGenerator.keys d) ++
  debug_trace with_debugging_logs ++
  [docstore_get_random_nodes test_size] ++
  (exec_submit <$> generate_jobs env self test_size d counts ns st) ++
  [exec_results].

Definition keep_rows (rows : list value) : list value :=
  List.filter (fun r => negb (is_nan r)) rows.

Definition track_event (d : Distributions) (st : store) (rows : list value) : event :=
  track {| event_type := "testset_generation";
           evolution_names :=
             (fun r => lower (Evolution.class_name (st !!! r))) <$> TestsetGenerator.keys d;
           evolution_percentages := TestsetGenerator.values d;
           num_rows := length (keep_rows rows) |}.

(** What a job contributes to the result sequence when failures are not raised. *)
Definition sentinel (o : job_outcome) : value :=
  match o with
  | Returns v => v
  | Fails _ => NaN
  end.

Definition reads (js : list Job) : list (evolution_ref * nat) :=
  (fun job => (job_evolution job, job_seed job)) <$> js.

Definition sum_error (d : Distributions) : exn :=
  ValueError [text "distributions passed do not sum to 1.0 [got ";
              number (sum (TestsetGenerator.values d));
              text "]. Please check the distributions."].

(** The executor after a stretch of the run holds the jobs it held
    before, followed by those submitted meanwhile. *)
Definition grows (exec exec' : Executor.t) (t : list event) : Prop :=
  Executor.jobs exec' = Executor.jobs exec ++ submitted t /\
  Executor.raise_exceptions exec' = Executor.raise_exceptions exec.

(** The first assertion of [save] that a strategy fails. *)
Definition save_assertion (e : Evolution.t) : string :=
  match Evolution.node_filter e, Evolution.question_filter e with
  | None, _ => "NodeFilter is not set"
  | Some _, None => "QuestionFilter is not set"
  | Some _, Some _ => "EvolutionFilter is not set"
  end.

(** [adapt] fails on a strategy when a filter is unset and [init_evolution]
    skips it because its generation model is bound. *)
Definition adapt_fails (e : Evolution.t) : bool :=
  match Evolution.generator_llm e with
  | Some _ => EvolutionMethods.filters_unset e
  | None => false
  end.

Definition docstore_ready (self : TestsetGenerator.t) : Prop :=
  is_InMemoryDocumentStore (TestsetGenerator.docstore self) = true /\
  is_Some (extractor (TestsetGenerator.docstore self)).

(** The strategy at [r] exists, and [adapt] fails on it exactly when [b]. *)
Definition verdict (st : store) (r : evolution_ref) (b : bool) : Prop :=
  exists e, st !! r = Some e /\ adapt_fails e = b.

Definition adapt_calls (cache_dir : option string) (language : string)
    (pre : list evolution_ref) : list event :=
  flat_map (fun r => [evolution_init r None None; evolution_adapt r language cache_dir]) pre.

(** ** Worked inputs *)

Definition example_generator : TestsetGenerator.t :=
  {| TestsetGenerator.generator_llm := "gpt-3.5-turbo-16k";
     TestsetGenerator.critic_llm := "gpt-4";
     TestsetGenerator.embeddings := "text-embedding-ada-002";
     TestsetGenerator.docstore :=
       {| is_InMemoryDocumentStore := true;
          extractor := Some (new_keyphraseExtractor "gpt-3.5-turbo-16k") |} |}.

Definition unbound (name : string) (complex : bool) : Evolution.t :=
  {| Evolution.class_name := name; Evolution.is_ComplexEvolution := complex;
     Evolution.generator_llm := None; Evolution.docstore := None;
     Evolution.question_filter := None; Evolution.node_filter := None;
     Evolution.evolution_filter := None |}.

(** Three fresh strategy objects at the addresses of [simple], [reasoning]
    and [multi_context]. *)
Definition example_store : store :=
  <[simple := unbound "SimpleEvolution" false]>
    (<[reasoning := unbound "ReasoningEvolution" true]>
       (<[multi_context := unbound "MultiContextEvolution" true]> ∅)).

Definition row_of (job : Job) : DataRow :=
  {| question := job_name job; answer := ""; contexts := []; metadata := [] |}.

(** A world where the store hands out nodes [0], [1], ... and every job
    returns a row. *)
Definition example_env : Env :=
  {| get_random_nodes := fun k => Ok (seq 0 (Z.to_nat k));
     random := fun j => j;
     evolve := fun _ job => Returns (Row (row_of job)) |}.

(** The same world, except that every job exhausts its retries. *)
Definition failing_env : Env :=
  {| get_random_nodes := fun k => Ok (seq 0 (Z.to_nat k));
     random := fun j => j;
     evolve := fun _ _ => Fails (Exception [text "MaxRetriesExceeded"]) |}.

Definition halves : Distributions := [(simple, f0_5); (reasoning, f0_5)].

Definition two_minus_one : Distributions :=
  [(simple, float_of_scaled 2 0); (reasoning, float_of_scaled (-1) 0)].

Definition slightly_over_one : Distributions := [(simple, float_of_scaled 2049 (-11))].

Definition example_exec : Executor.t :=
  {| Executor.desc := "Generating"; Executor.keep_progress_bar := true;
     Executor.raise_exceptions := true; Executor.jobs := [] |}.

Definition nine_tenths : Distributions := [(simple, float_lit 9 10)].
Definition eleven_tenths : Distributions := [(simple, float_lit 11 10)].

Definition all_simple : Distributions := [(simple, f1_0)].

Definition sometimes_failing_env : Env :=
  {| get_random_nodes := fun k => Ok (seq 0 (Z.to_nat k));
     random := fun j => j;
     evolve := fun j job =>
       if Nat.even j then Returns (Row (row_of job))
       else Fails (Exception [text "MaxRetriesExceeded"]) |}.

(** A store where [simple] has been through [init_evolution] and
    [reasoning] has not. *)
Definition half_ready_store : store :=
  alter (TestsetGenerator.init_evolution_fields example_generator) simple example_store.

(** A composite strategy configured by hand: generation model bound, the
    evolution filter forgotten. *)
Definition hand_made : Evolution.t :=
  {| Evolution.class_name := "ReasoningEvolution"; Evolution.is_ComplexEvolution := true;
     Evolution.generator_llm := Some "gpt-4"; Evolution.docstore := None;
     Evolution.question_filter := Some (new_QuestionFilter "gpt-4");
     Evolution.node_filter := Some (new_NodeFilter "gpt-4");
     Evolution.evolution_filter := None |}.

Definition hand_made_store : store := <[reasoning := hand_made]> example_store.

(** ** Construction and export

    The rest of the module: the [with_openai] constructor and the
    conversions of [TestDataset]. *)

Variant TokenTextSplitter : Type :=
  new_TokenTextSplitter (chunk_size chunk_overlap : Z).

(** [LangchainLLMWrapper(ChatOpenAI(model=name))]: the handle on that model. *)
Definition LangchainLLMWrapper (model : string) : LLM := model.

(** [LangchainEmbeddingsWrapper(OpenAIEmbeddings(model=name))]. *)
Definition LangchainEmbeddingsWrapper (model : string) : Embeddings := model.

(** [InMemoryDocumentStore(splitter=..., embeddings=..., extractor=...)],
    as the generator sees the new store: in memory, with that extractor. *)
Definition new_InMemoryDocumentStore (splitter : TokenTextSplitter)
    (embeddings : Embeddings) (extractor : keyphraseExtractor) : DocumentStore :=
  {| is_InMemoryDocumentStore := true; extractor := Some extractor |}.

Definition with_openai (generator_llm critic_llm embeddings : option string)
    (docstore : option DocumentStore) (chunk_size : option Z) : TestsetGenerator.t :=
  let generator_llm := default "gpt-3.5-turbo-16k" generator_llm in
  let critic_llm := default "gpt-4" critic_llm in
  let embeddings := default "text-embedding-ada-002" embeddings in
  let chunk_size := default 512 chunk_size in
  let generator_llm_model := LangchainLLMWrapper generator_llm in
  let critic_llm_model := LangchainLLMWrapper critic_llm in
  let embeddings_model := LangchainEmbeddingsWrapper embeddings in
  let keyphrase_extractor := new_keyphraseExtractor generator_llm_model in
  match docstore with
  | None =>
      let splitter := new_TokenTextSplitter chunk_size 0 in
      let docstore :=
        new_InMemoryDocumentStore splitter embeddings_model keyphrase_extractor in
      {| TestsetGenerator.generator_llm := generator_llm_model;
         TestsetGenerator.critic_llm := critic_llm_model;
         TestsetGenerator.embeddings := embeddings_model;
         TestsetGenerator.docstore := docstore |}
  | Some docstore =>
      {| TestsetGenerator.generator_llm := generator_llm_model;
         TestsetGenerator.critic_llm := critic_llm_model;
         TestsetGenerator.embeddings := embeddings_model;
         TestsetGenerator.docstore := docstore |}
  end.

(** The values held by a record of the exported dataset. *)
Inductive record_value : Type :=
  | Str (s : string)
  | StrList (l : list string)
  | Meta (m : list (string * string))
  | Bool (b : bool).

(** Modelled from the spec: [dict(data)] for a [DataRow], whose class is
    declared in [ragas.testset.evolutions]: one key per field of the row. *)
Definition dict_of_row (r : DataRow) : gmap string record_value :=
  <["question" := Str (question r)]>
    (<["answer" := Str (answer r)]>
       (<["contexts" := StrList (contexts r)]>
          (<["metadata" := Meta (metadata r)]> ∅))).

(** [dict(data)] for an element of [test_data]: the NaN sentinel is a
    float, which [dict] refuses with a [TypeError]. *)
Definition dict (data : value) : outcome (gmap string record_value) :=
  match data with
  | Row r => Ok (dict_of_row r)
  | NaN => Raise (Exception [text "TypeError: 'float' object is not iterable"])
  end.

Module TestDatasetMethods.
Fixpoint to_records_from (test_data : list value)
    (data_samples : list (gmap string record_value))
    : outcome (list (gmap string record_value)) :=
  match test_data with
  | [] => Ok data_samples
  | data :: rest =>
      match dict data with
      | Ok data_dict =>
          to_records_from rest (data_samples ++ [<["episode_done" := Bool true]> data_dict])
      | Raise e => Raise e
      end
  end.

Definition _to_records (self : TestDataset)
    : outcome (list (gmap string record_value)) :=
  to_records_from (test_data self) [].

Variant DataFrame : Type :=
  DataFrame_from_records (records : list (gmap string record_value)).
Variant Dataset : Type :=
  Dataset_from_list (records : list (gmap string record_value)).

Definition to_pandas (self : TestDataset) : outcome DataFrame :=
  match _to_records self with
  | Ok records => Ok (DataFrame_from_records records)
  | Raise e => Raise e
  end.

Definition to_dataset (self : TestDataset) : outcome Dataset :=
  match _to_records self with
  | Ok records => Ok (Dataset_from_list records)
  | Raise e => Raise e
  end.
End TestDatasetMethods.

(** ** Further notions *)

(** The computation leaves every strategy object as it is. *)
Definition keeps_store {A} (m : M A) : Prop := forall st, store_of (m st) = st.

(** The telemetry events among the recorded calls. *)
Definition tracked (trace : list event) : list TesetGenerationEvent :=
  omap (fun ev => match ev with track e => Some e | _ => None end) trace.

(** The computation emits no telemetry. *)
Definition untracked {A} (m : M A) : Prop := forall st, tracked (trace_of (m st)) = [].

(** The computation reports to telemetry exactly when it returns: once,
    with the number of rows of the dataset it returns. *)
Definition reports (m : M TestDataset) : Prop :=
  forall st,
    match result_of (m st) with
    | Ok ds => exists ev, tracked (trace_of (m st)) = [ev] /\
                          last (trace_of (m st)) = Some (track ev) /\
                          num_rows ev = length (test_data ds)
    | Raise _ => tracked (trace_of (m st)) = []
    end.

(** A weight that is a number: neither NaN nor infinite. *)
Definition is_finite (x : float) : bool :=
  match x with
  | S754_zero _ | S754_finite _ _ _ => true
  | _ => false
  end.


(** A world whose docstore cannot supply nodes. *)
Definition empty_docstore_env : Env :=
  {| get_random_nodes := fun _ => Raise (ValueError [text "not enough nodes"]);
     random := fun j => j;
     evolve := fun _ job => Returns (Row (row_of job)) |}.

(** * Properties *)

(** ** Reasoning about computations *)

Lemma bind_Ok {A B} (m : M A) (k : A -> M B) st a st1 t1 :
  m st = (Ok a, st1, t1) ->
  (m ≫= k) st = ((k a st1).1.1, (k a st1).1.2, t1 ++ (k a st1).2).
Proof.
  intros H. unfold mbind, M_bind, bind. rewrite H.
  destruct (k a st1) as [[r st2] t2]. reflexivity.
Qed.

Lemma bind_Raise {A B} (m : M A) (k : A -> M B) st e st1 t1 :
  m st = (Raise e, st1, t1) -> (m ≫= k) st = (Raise e, st1, t1).
Proof. intros H. unfold mbind, M_bind, bind. rewrite H. reflexivity. Qed.

Lemma add_jobs_nil exec : add_jobs exec [] = exec.
Proof. destruct exec. unfold add_jobs. simpl. rewrite app_nil_r. reflexivity. Qed.

Lemma add_jobs_app exec js1 js2 :
  add_jobs (add_jobs exec js1) js2 = add_jobs exec (js1 ++ js2).
Proof. unfold add_jobs. simpl. rewrite app_assoc. reflexivity. Qed.

Lemma index_lookup {A} `{Inhabited A} (xs : list A) (i : nat) st :
  (i < length xs)%nat -> index xs i st = (Ok (xs !!! i), st, []).
Proof.
  intros Hi. unfold index.
  destruct (lookup_lt_is_Some_2 xs i Hi) as [x Hx].
  rewrite Hx. rewrite (list_lookup_total_correct _ _ _ Hx). reflexivity.
Qed.

Lemma index_out_of_range {A} (xs : list A) (i : nat) st :
  (length xs <= i)%nat ->
  index xs i st = (Raise (IndexError [text "list index out of range"]), st, []).
Proof. intros Hi. unfold index. rewrite (lookup_ge_None_2 _ _ Hi). reflexivity. Qed.

(** ** The submission loops *)

Section Submission.
Import TestsetGenerator.
Variable current_nodes : list CurrentNodes.

Lemma submit_evolve_ok evolution i exec st :
  (i < length current_nodes)%nat ->
  submit_evolve current_nodes evolution i exec st =
    (Ok (add_jobs exec (plan_jobs st current_nodes [(evolution, i)])), st,
     exec_submit <$> plan_jobs st current_nodes [(evolution, i)]).
Proof.
  intros Hi. unfold submit_evolve.
  rewrite (bind_Ok _ _ _ _ _ _ (index_lookup _ _ _ Hi)). reflexivity.
Qed.

Lemma submit_evolve_out_of_range evolution i exec st :
  (length current_nodes <= i)%nat ->
  submit_evolve current_nodes evolution i exec st =
    (Raise (IndexError [text "list index out of range"]), st, []).
Proof.
  intros Hi. unfold submit_evolve.
  rewrite (bind_Raise _ _ _ _ _ _ (index_out_of_range _ _ _ Hi)). reflexivity.
Qed.

(** One strategy's batch: positions [a], [a+1], ... of the seed list. *)
Lemma batch_ok evolution n : forall a exec total st,
  (a + n <= length current_nodes)%nat ->
  for_each (seq a n)
    (fun i '(exec, total_evolutions) =>
       exec ← submit_evolve current_nodes evolution i exec;
       mret (exec, S total_evolutions))
    (exec, total) st =
  (Ok (add_jobs exec (plan_jobs st current_nodes (pair evolution <$> seq a n)),
       (total + n)%nat), st,
   exec_submit <$> plan_jobs st current_nodes (pair evolution <$> seq a n)).
Proof.
  induction n as [|n IH]; intros a exec total st Hlen; simpl.
  - rewrite add_jobs_nil, Nat.add_0_r. reflexivity.
  - erewrite bind_Ok; cycle 1.
    { erewrite bind_Ok; [|apply submit_evolve_ok; lia]. reflexivity. }
    simpl. rewrite IH by lia. simpl.
    rewrite add_jobs_app. repeat f_equal. lia.
Qed.

Lemma plan_jobs_app st plan1 plan2 :
  plan_jobs st current_nodes (plan1 ++ plan2) =
  plan_jobs st current_nodes plan1 ++ plan_jobs st current_nodes plan2.
Proof. unfold plan_jobs. apply fmap_app. Qed.

Lemma plan_jobs_length st plan :
  length (plan_jobs st current_nodes plan) = length plan.
Proof. unfold plan_jobs. apply length_fmap. Qed.

Lemma partition_plan_length distributions counts :
  length distributions = length counts ->
  length (partition_plan distributions counts) = total_count counts.
Proof.
  revert counts. induction distributions as [|d ds IH]; intros [|n ns] Hlen;
    simpl in *; try discriminate; [reflexivity|].
  unfold partition_plan in *. simpl.
  rewrite length_app, length_fmap. unfold range. rewrite length_seq.
  rewrite IH by lia. reflexivity.
Qed.

(** The partition loop, started from any executor and running total. *)
Lemma partition_loop_ok test_size distributions counts :
  counts_of test_size distributions counts ->
  Forall (fun n => (Z.to_nat n <= length current_nodes)%nat) counts ->
  forall exec total st,
  for_each distributions
    (fun '(evolution, probability) '(exec, total_evolutions) =>
       x ← lift (float_mul_int probability test_size);
       n ← lift (round x);
       for_each (range n)
         (fun i '(exec, total_evolutions) =>
            exec ← submit_evolve current_nodes evolution i exec;
            mret (exec, S total_evolutions))
         (exec, total_evolutions))
    (exec, total) st =
  (Ok (add_jobs exec (plan_jobs st current_nodes (partition_plan distributions counts)),
       (total + total_count counts)%nat), st,
   exec_submit <$> plan_jobs st current_nodes (partition_plan distributions counts)).
Proof.
  intros Hcounts. induction Hcounts as [|[evolution probability] n ds ns Hn _ IH];
    intros Hbound exec total st.
  - simpl. rewrite add_jobs_nil, Nat.add_0_r. reflexivity.
  - apply Forall_cons in Hbound as [Hn_le Hbound].
    simpl in Hn. unfold job_count in Hn.
    destruct (float_mul_int probability test_size) as [x|] eqn:Hx; [|discriminate].
    cbn [for_each].
    erewrite bind_Ok; cycle 1.
    { erewrite bind_Ok; [|unfold lift; rewrite Hx; reflexivity].
      cbn [fst snd]. erewrite bind_Ok; [|unfold lift; rewrite Hn; reflexivity].
      cbn [fst snd]. unfold range. rewrite batch_ok by (simpl; lia).
      reflexivity. }
    cbn [fst snd]. rewrite (IH Hbound). cbn [fst snd].
    unfold partition_plan. cbn [zip zip_with flat_map fst snd total_count foldr].
    rewrite !plan_jobs_app, add_jobs_app, fmap_app. cbn [app].
    unfold range. rewrite <- Nat.add_assoc. reflexivity.
Qed.

Lemma partition_pass_ok test_size distributions counts exec st :
  counts_of test_size distributions counts ->
  Forall (fun n => (Z.to_nat n <= length current_nodes)%nat) counts ->
  partition_pass test_size distributions current_nodes exec st =
  (Ok (add_jobs exec (plan_jobs st current_nodes (partition_plan distributions counts)),
       total_count counts), st,
   exec_submit <$> plan_jobs st current_nodes (partition_plan distributions counts)).
Proof.
  intros Hc Hb. unfold partition_pass.
  rewrite (partition_loop_ok _ _ _ Hc Hb). reflexivity.
Qed.

Lemma choices_loop env (population : list evolution_ref) n : forall a picked st,
  population <> [] ->
  for_each (seq a n)
    (fun j picked =>
       x ← index population (random env j mod length population)%nat;
       mret (picked ++ [x]))
    picked st =
  (Ok (picked ++
       ((fun j => population !!! (random env j mod length population)%nat) <$> seq a n)),
   st, []).
Proof.
  induction n as [|n IH]; intros a picked st Hne; simpl.
  - rewrite app_nil_r. reflexivity.
  - assert (Hlt : (random env a mod length population < length population)%nat).
    { apply Nat.mod_upper_bound. destruct population; [congruence|simpl; lia]. }
    erewrite bind_Ok; cycle 1.
    { erewrite bind_Ok; [|apply index_lookup, Hlt]. reflexivity. }
    cbn [fst snd]. rewrite IH by assumption. cbn [fst snd app].
    rewrite <- app_assoc. reflexivity.
Qed.

Lemma choices_ok env (population : list evolution_ref) k st :
  population <> [] ->
  choices env population k st = (Ok (picks env population (Z.to_nat k)), st, []).
Proof. intros Hne. unfold choices, range. rewrite choices_loop by assumption. reflexivity. Qed.

Lemma choices_none env (population : list evolution_ref) k st :
  k <= 0 -> choices env population k st = (Ok [], st, []).
Proof.
  intros Hk. unfold choices, range.
  replace (Z.to_nat k) with 0%nat by lia. reflexivity.
Qed.

Lemma filler_loop_ok ps : forall exec total st,
  (total + length ps <= length current_nodes)%nat ->
  for_each ps
    (fun evolution '(exec, total_evolutions) =>
       exec ← submit_evolve current_nodes evolution total_evolutions exec;
       mret (exec, S total_evolutions))
    (exec, total) st =
  (Ok (add_jobs exec (plan_jobs st current_nodes (zip ps (seq total (length ps)))),
       (total + length ps)%nat), st,
   exec_submit <$> plan_jobs st current_nodes (zip ps (seq total (length ps)))).
Proof.
  induction ps as [|p ps IH]; intros exec total st Hlen; simpl in *.
  - rewrite add_jobs_nil, Nat.add_0_r. reflexivity.
  - erewrite bind_Ok; cycle 1.
    { erewrite bind_Ok; [|apply submit_evolve_ok; lia]. reflexivity. }
    cbn [fst snd]. rewrite IH by lia. cbn [fst snd].
    rewrite add_jobs_app. rewrite <- Nat.add_succ_comm. reflexivity.
Qed.

Lemma picks_length env population k : length (picks env population k) = k.
Proof. unfold picks. rewrite length_fmap, length_seq. reflexivity. Qed.

Lemma filler_plan_length env test_size distributions total :
  length (filler_plan env test_size distributions total) =
  Z.to_nat (test_size - Z.of_nat total).
Proof.
  unfold filler_plan. destruct (Z.leb_spec (Z.of_nat total) test_size).
  - rewrite length_zip, picks_length, length_seq. lia.
  - simpl. lia.
Qed.

(** The filler pass never reads past the seeds when [test_size] of them
    were drawn. *)
Lemma filler_pass_ok env test_size distributions exec total st :
  distributions <> [] ->
  length current_nodes = Z.to_nat test_size ->
  filler_pass env test_size distributions current_nodes exec total st =
  (Ok (add_jobs exec
         (plan_jobs st current_nodes (filler_plan env test_size distributions total)),
       (total + length (filler_plan env test_size distributions total))%nat), st,
   exec_submit <$>
     plan_jobs st current_nodes (filler_plan env test_size distributions total)).
Proof.
  intros Hne Hlen. unfold filler_pass.
  pose proof (filler_plan_length env test_size distributions total) as Hfl.
  unfold filler_plan in *.
  destruct (Z.leb_spec (Z.of_nat total) test_size) as [Hle|Hgt].
  - erewrite bind_Ok; cycle 1.
    { apply choices_ok. unfold keys. destruct distributions; [congruence|discriminate]. }
    cbn [fst snd app].
    rewrite filler_loop_ok by (rewrite picks_length; lia).
    rewrite picks_length. cbn [fst snd app]. rewrite Hfl. reflexivity.
  - simpl. rewrite add_jobs_nil, Nat.add_0_r. reflexivity.
Qed.
End Submission.

(** ** The run of [generate] *)

Section Generate.
Import TestsetGenerator.

Lemma bind_run {A B} (m : M A) (k : A -> M B) st a st1 t1 r st2 t2 :
  m st = (Ok a, st1, t1) ->
  k a st1 = (r, st2, t2) ->
  (m ≫= k) st = (r, st2, t1 ++ t2).
Proof. intros Hm Hk. rewrite (bind_Ok _ _ _ _ _ _ Hm), Hk. reflexivity. Qed.

Lemma init_loop_ok self is_async run_config evolutions : forall st,
  for_each evolutions
    (fun evolution _ =>
       init_evolution self evolution;;
       EvolutionMethods.init evolution is_async run_config)
    tt st =
  (Ok tt, init_all self evolutions st,
   (fun r => evolution_init r is_async run_config) <$> evolutions).
Proof.
  induction evolutions as [|r rs IH]; intros st; [reflexivity|].
  cbn [for_each].
  erewrite bind_run; [| eapply bind_run; reflexivity | apply IH].
  reflexivity.
Qed.

Lemma names_loop_ok evolutions : forall names st,
  for_each evolutions
    (fun evolution names =>
       e ← get_evolution evolution;
       mret (names ++ [lower (Evolution.class_name e)]))
    names st =
  (Ok (names ++ ((fun r => lower (Evolution.class_name (st !!! r))) <$> evolutions)),
   st, []).
Proof.
  induction evolutions as [|r rs IH]; intros names st.
  - simpl. rewrite app_nil_r. reflexivity.
  - cbn [for_each]. erewrite bind_run; [| eapply bind_run; reflexivity | apply IH].
    rewrite <- app_assoc. reflexivity.
Qed.

Lemma validated_nonempty d :
  check_if_sum_is_close (values d) f1_0 3 = true -> d <> [].
Proof. intros H ->. vm_compute in H. discriminate. Qed.

Theorem generate_run env self test_size distributions with_debugging_logs
    is_async raise_exceptions run_config counts ns st :
  let d := default DEFAULT_DISTRIBUTION distributions in
  let logs := default false with_debugging_logs in
  let async := default true is_async in
  let rc := resolve_run_config run_config in
  let st' := init_all self (keys d) st in
  let T := trace_to_results env self test_size d logs async rc counts ns st in
  check_if_sum_is_close (values d) f1_0 3 = true ->
  get_random_nodes env test_size = Ok ns ->
  length ns = Z.to_nat test_size ->
  counts_of test_size d counts ->
  Forall (fun n => n <= test_size) counts ->
  generate env self test_size distributions with_debugging_logs is_async
    raise_exceptions run_config st =
  match Executor.run env (default true raise_exceptions) 0
          (generate_jobs env self test_size d counts ns st) with
  | Ok rows => (Ok {| test_data := keep_rows rows |}, st', T ++ [track_event d st' rows])
  | Raise e => (Raise e, st', T)
  end.
Proof.
  intros d logs async rc st' T Hvalid Hnodes Hlen Hcounts Hbound.
  assert (Hne : d <> []) by (apply validated_nonempty, Hvalid).
  assert (Hseeds : length (seeds ns) = Z.to_nat test_size).
  { unfold seeds. rewrite length_map. exact Hlen. }
  assert (Hb : Forall (fun n => (Z.to_nat n <= length (seeds ns))%nat) counts).
  { eapply Forall_impl; [exact Hbound|]. intros n Hn. simpl in Hn. lia. }
  unfold generate. fold d. cbv zeta. rewrite Hvalid. cbn [negb].
  fold rc logs async.
  set (exec0 := {| Executor.desc := "Generating"; Executor.keep_progress_bar := true;
                   Executor.raise_exceptions := default true raise_exceptions;
                   Executor.jobs := [] |}).
  pose proof (partition_pass_ok (seeds ns) test_size d counts exec0 st' Hcounts Hb) as Hpart.
  pose proof (filler_pass_ok (seeds ns) env test_size d
                (add_jobs exec0 (plan_jobs st' (seeds ns) (partition_plan d counts)))
                (total_count counts) st' Hne Hseeds) as Hfill.
  rewrite add_jobs_app, <- plan_jobs_app in Hfill.
  fold (generate_plan env test_size d counts) in Hfill.
  assert (Hexec : Executor.jobs
            (add_jobs exec0 (plan_jobs st' (seeds ns) (generate_plan env test_size d counts)))
          = generate_jobs env self test_size d counts ns st) by reflexivity.
  assert (Hdebug : (if logs
       then emit (patch_logger "ragas.testset.evolutions" DEBUG);;
            emit (patch_logger "ragas.testset.extractor" DEBUG);;
            emit (patch_logger "ragas.testset.filters" DEBUG);;
            emit (patch_logger "ragas.testset.docstore" DEBUG);;
            emit (patch_logger "ragas.llms.prompt" DEBUG)
       else mret tt) st' = (Ok tt, st', debug_trace logs)).
  { destruct logs; reflexivity. }
  destruct (Executor.run env (default true raise_exceptions) 0
              (generate_jobs env self test_size d counts ns st)) as [rows|e] eqn:Hrun.
  - erewrite bind_run; [| reflexivity |].
    2:{ eapply bind_run; [apply init_loop_ok|].
        eapply bind_run; [exact Hdebug|].
        eapply bind_run; [reflexivity|].
        eapply bind_run; [unfold lift; rewrite Hnodes; reflexivity|].
        fold (seeds ns).
        eapply bind_run; [exact Hpart|]. cbv beta iota.
        eapply bind_run; [exact Hfill|]. cbv beta iota.
        eapply bind_run.
        { unfold Executor.results. eapply bind_run; [reflexivity|].
          unfold lift. cbn [Executor.raise_exceptions add_jobs exec0].
          rewrite Hexec, Hrun. reflexivity. }
        eapply bind_run; [apply names_loop_ok|].
        eapply bind_run; reflexivity. }
    unfold T, trace_to_results, track_event, generate_jobs, keep_rows, generate_plan.
    fold st'. rewrite !plan_jobs_app, !fmap_app.
    cbn [test_data]. repeat (rewrite <- app_assoc || (progress cbn [app])). reflexivity.
  - erewrite bind_run; [| reflexivity |].
    2:{ eapply bind_run; [apply init_loop_ok|].
        eapply bind_run; [exact Hdebug|].
        eapply bind_run; [reflexivity|].
        eapply bind_run; [unfold lift; rewrite Hnodes; reflexivity|].
        fold (seeds ns).
        eapply bind_run; [exact Hpart|]. cbv beta iota.
        eapply bind_run; [exact Hfill|]. cbv beta iota.
        eapply bind_Raise.
        unfold Executor.results. eapply bind_run; [reflexivity|].
        unfold lift. cbn [Executor.raise_exceptions add_jobs exec0].
        rewrite Hexec, Hrun. reflexivity. }
    unfold T, trace_to_results, generate_jobs, generate_plan.
    fold st'. rewrite !plan_jobs_app, !fmap_app.
    repeat (rewrite <- app_assoc || (progress cbn [app])). reflexivity.
Qed.
End Generate.

(** ** What the executor returns *)

Section Results.
Variable env : Env.

Lemma run_length raise_exceptions jobs : forall j rows,
  Executor.run env raise_exceptions j jobs = Ok rows -> length rows = length jobs.
Proof.
  induction jobs as [|job jobs IH]; intros j rows H; simpl in H.
  - injection H as <-. reflexivity.
  - destruct (evolve env j job) as [v|e].
    + destruct (Executor.run env raise_exceptions (S j) jobs) eqn:Hr; [|discriminate].
      injection H as <-. simpl. f_equal. eapply IH, Hr.
    + destruct raise_exceptions; [discriminate|].
      destruct (Executor.run env false (S j) jobs) eqn:Hr; [|discriminate].
      injection H as <-. simpl. f_equal. eapply IH, Hr.
Qed.

(** An error out of [results] is the error of one of the jobs, and only
    comes out under the raising policy. *)
Lemma run_raise raise_exceptions jobs : forall j e,
  Executor.run env raise_exceptions j jobs = Raise e ->
  raise_exceptions = true /\
  exists i job, jobs !! i = Some job /\ evolve env (j + i) job = Fails e.
Proof.
  induction jobs as [|job jobs IH]; intros j e H; simpl in H; [discriminate|].
  destruct (evolve env j job) as [v|e0] eqn:Hj.
  - destruct (Executor.run env raise_exceptions (S j) jobs) eqn:Hr; [discriminate|].
    injection H as ->. destruct (IH _ _ Hr) as (Hre & i & job' & Hi & Hf).
    split; [exact Hre|]. exists (S i), job'. split; [exact Hi|].
    rewrite <- Hf. f_equal. lia.
  - destruct raise_exceptions.
    + injection H as ->. split; [reflexivity|].
      exists 0%nat, job. rewrite Nat.add_0_r. split; [reflexivity|exact Hj].
    + destruct (Executor.run env false (S j) jobs) eqn:Hr; [discriminate|].
      injection H as ->. destruct (IH _ _ Hr) as (Hre & _). discriminate.
Qed.

Lemma run_lenient jobs : forall j,
  Executor.run env false j jobs =
  Ok (imap (fun i job => sentinel (evolve env (j + i) job)) jobs).
Proof.
  induction jobs as [|job jobs IH]; intros j; simpl; [reflexivity|].
  rewrite IH, Nat.add_0_r.
  assert (Heq : imap (fun i job => sentinel (evolve env (S j + i) job)) jobs =
                imap ((fun i job => sentinel (evolve env (j + i) job)) ∘ S) jobs).
  { apply imap_ext. intros i x _. simpl. f_equal. f_equal. lia. }
  rewrite Heq. destruct (evolve env j job); reflexivity.
Qed.

(** Under the raising policy the first failure, in submission order, is raised. *)
Lemma run_strict_first_failure jobs : forall j i job e,
  jobs !! i = Some job ->
  evolve env (j + i) job = Fails e ->
  (forall i' job', (i' < i)%nat -> jobs !! i' = Some job' ->
                   exists v, evolve env (j + i') job' = Returns v) ->
  Executor.run env true j jobs = Raise e.
Proof.
  induction jobs as [|job0 jobs IH]; intros j i job e Hi Hf Hbefore; [discriminate|].
  destruct i as [|i]; simpl in *.
  - injection Hi as ->. rewrite Nat.add_0_r in Hf. rewrite Hf. reflexivity.
  - destruct (Hbefore 0%nat job0 ltac:(lia) eq_refl) as [v Hv].
    rewrite Nat.add_0_r in Hv. rewrite Hv.
    rewrite (IH (S j) i job e Hi); [reflexivity| |].
    + rewrite <- Hf. f_equal. lia.
    + intros i' job' Hlt Hl. destruct (Hbefore (S i') job' ltac:(lia) Hl) as [v' Hv'].
      exists v'. rewrite <- Hv'. f_equal. lia.
Qed.

(** When every job returns a row, all rows come back and none is dropped. *)
Lemma run_all_rows raise_exceptions jobs : forall j,
  (forall i job, exists r, evolve env i job = Returns (Row r)) ->
  exists rows, Executor.run env raise_exceptions j jobs = Ok rows /\
               keep_rows rows = rows.
Proof.
  intros j Hrows. revert j.
  induction jobs as [|job jobs IH]; intros j; simpl.
  - exists []. split; reflexivity.
  - destruct (Hrows j job) as [r Hr]. rewrite Hr.
    destruct (IH (S j)) as (rows & Hrun & Hkeep). rewrite Hrun.
    exists (Row r :: rows). split; [reflexivity|].
    unfold keep_rows in *. simpl. rewrite Hkeep. reflexivity.
Qed.

Lemma keep_rows_length rows : (length (keep_rows rows) <= length rows)%nat.
Proof. unfold keep_rows. apply List.filter_length_le. Qed.
End Results.

(** ** Size of the returned dataset *)

Section Size.
Import TestsetGenerator.

Lemma generate_plan_length env test_size d counts :
  length d = length counts ->
  Z.of_nat (total_count counts) <= test_size ->
  length (generate_plan env test_size d counts) = Z.to_nat test_size.
Proof.
  intros Hl Hle. unfold generate_plan.
  rewrite length_app, partition_plan_length, filler_plan_length by assumption. lia.
Qed.

Lemma total_count_bound counts n :
  In n counts -> (Z.to_nat n <= total_count counts)%nat.
Proof.
  induction counts as [|m counts IH]; intros Hin; simpl in *; [contradiction|].
  destruct Hin as [->|Hin]; [lia|]. specialize (IH Hin). lia.
Qed.

Lemma counts_within test_size counts :
  0 < test_size ->
  Z.of_nat (total_count counts) <= test_size ->
  Forall (fun n => n <= test_size) counts.
Proof.
  intros Hpos Hle. apply List.Forall_forall. intros n Hin.
  pose proof (total_count_bound counts n Hin). lia.
Qed.
End Size.

(** C1 (as amended).  For a distribution passing validation and a positive
    [test_size], when the rounded per-strategy job counts
    [round(probability * test_size)] sum to at most [test_size]: a dataset
    returned by [generate] has at most [test_size] rows; [generate] can only
    raise the error of a failed job, and only under the raising policy; and
    when every job returns a row, [generate] returns exactly [test_size] rows. *)
Theorem generate_rows_within_test_size
    env self test_size distributions with_debugging_logs is_async
    raise_exceptions run_config counts ns st :
  let d := default DEFAULT_DISTRIBUTION distributions in
  let r := TestsetGenerator.generate env self test_size distributions
             with_debugging_logs is_async raise_exceptions run_config st in
  check_if_sum_is_close (TestsetGenerator.values d) f1_0 3 = true ->
  0 < test_size ->
  get_random_nodes env test_size = Ok ns ->
  length ns = Z.to_nat test_size ->
  counts_of test_size d counts ->
  Z.of_nat (total_count counts) <= test_size ->
  (forall ds, result_of r = Ok ds -> Z.of_nat (length (test_data ds)) <= test_size) /\
  (forall e, result_of r = Raise e ->
     default true raise_exceptions = true /\ exists i job, evolve env i job = Fails e) /\
  ((forall i job, exists row, evolve env i job = Returns (Row row)) ->
   exists ds, result_of r = Ok ds /\ Z.of_nat (length (test_data ds)) = test_size).
Proof.
  intros d r Hvalid Hpos Hnodes Hlen Hcounts Hsum.
  pose proof (counts_within _ _ Hpos Hsum) as Hbound.
  pose proof (generate_run env self test_size distributions with_debugging_logs
                is_async raise_exceptions run_config counts ns st
                Hvalid Hnodes Hlen Hcounts Hbound) as Hrun.
  fold d in Hrun. fold r in Hrun.
  assert (Hjobs : length (generate_jobs env self test_size d counts ns st)
                  = Z.to_nat test_size).
  { unfold generate_jobs. rewrite plan_jobs_length.
    apply generate_plan_length; [|exact Hsum]. eapply Forall2_length, Hcounts. }
  split; [|split].
  - intros ds Hds. unfold result_of in Hds. rewrite Hrun in Hds.
    destruct (Executor.run _ _ _ _) as [rows|e] eqn:Hr; simpl in Hds; [|discriminate].
    injection Hds as <-. simpl.
    pose proof (keep_rows_length rows). apply run_length in Hr. lia.
  - intros e He. unfold result_of in He. rewrite Hrun in He.
    destruct (Executor.run _ _ _ _) as [rows|e'] eqn:Hr; simpl in He; [discriminate|].
    injection He as ->. apply run_raise in Hr as (Hre & i & job & _ & Hf).
    split; [exact Hre|]. eauto.
  - intros Hrows.
    destruct (run_all_rows env (default true raise_exceptions)
                (generate_jobs env self test_size d counts ns st) 0%nat Hrows)
      as (rows & Hr & Hkeep).
    exists {| test_data := keep_rows rows |}. unfold result_of. rewrite Hrun, Hr. simpl.
    split; [reflexivity|]. rewrite Hkeep. apply run_length in Hr. lia.
Qed.

Lemma generate_rows_within_test_size_witness :
  let r := TestsetGenerator.generate example_env example_generator 10 None None None
             None None example_store in
  (forall ds, result_of r = Ok ds -> Z.of_nat (length (test_data ds)) <= 10) /\
  (forall e, result_of r = Raise e ->
     default true None = true /\ exists i job, evolve example_env i job = Fails e) /\
  ((forall i job, exists row, evolve example_env i job = Returns (Row row)) ->
   exists ds, result_of r = Ok ds /\ Z.of_nat (length (test_data ds)) = 10).
Proof.
  apply (generate_rows_within_test_size example_env example_generator 10 None None None
           None None [5; 2; 2] (seq 0 10) example_store).
  - vm_compute. reflexivity.
  - lia.
  - reflexivity.
  - reflexivity.
  - repeat constructor.
  - vm_compute. discriminate.
Defined.

(** C1 (as stated) fails: with weights 0.5 and 0.5 and [test_size = 3] the
    distribution passes validation, each strategy gets [round(1.5) = 2]
    jobs, no filler is needed and nothing trims the surplus, so four rows
    come back. *)
Lemma generate_overshoots_test_size :
  check_if_sum_is_close (TestsetGenerator.values halves) f1_0 3 = true /\
  (forall i job, exists row, evolve example_env i job = Returns (Row row)) /\
  exists ds,
    result_of (TestsetGenerator.generate example_env example_generator 3 (Some halves)
                 None None None None example_store) = Ok ds /\
    length (test_data ds) = 4%nat /\
    ~ (Z.of_nat (length (test_data ds)) <= 3).
Proof.
  split; [vm_compute; reflexivity|].
  split; [intros i job; eexists; reflexivity|].
  eexists. split; [vm_compute; reflexivity|].
  split; [reflexivity|]. simpl. lia.
Qed.

(** ** The jobs that get submitted *)

Section Submitted.
Import TestsetGenerator.

Lemma submitted_app t1 t2 : submitted (t1 ++ t2) = submitted t1 ++ submitted t2.
Proof. unfold submitted. apply omap_app. Qed.

Lemma submitted_jobs js : submitted (exec_submit <$> js) = js.
Proof. induction js as [|j js IH]; simpl; [reflexivity|]. f_equal. exact IH. Qed.

Lemma submitted_inits is_async run_config (rs : list evolution_ref) :
  submitted ((fun r => evolution_init r is_async run_config) <$> rs) = [].
Proof. induction rs as [|r rs IH]; simpl; [reflexivity|exact IH]. Qed.

Lemma submitted_debug logs : submitted (debug_trace logs) = [].
Proof. destruct logs; reflexivity. Qed.

Lemma submitted_trace_to_results env self test_size d logs async rc counts ns st :
  submitted (trace_to_results env self test_size d logs async rc counts ns st) =
  generate_jobs env self test_size d counts ns st.
Proof.
  unfold trace_to_results.
  rewrite !submitted_app, submitted_inits, submitted_debug, submitted_jobs.
  simpl. apply app_nil_r.
Qed.

(** In a run that gets past the seed draw with sane counts, the jobs
    handed to the executor are those of the plan. *)
Lemma generate_submits env self test_size distributions with_debugging_logs
    is_async raise_exceptions run_config counts ns st :
  let d := default DEFAULT_DISTRIBUTION distributions in
  check_if_sum_is_close (values d) f1_0 3 = true ->
  get_random_nodes env test_size = Ok ns ->
  length ns = Z.to_nat test_size ->
  counts_of test_size d counts ->
  Forall (fun n => n <= test_size) counts ->
  submitted (trace_of (generate env self test_size distributions with_debugging_logs
                         is_async raise_exceptions run_config st)) =
  generate_jobs env self test_size d counts ns st.
Proof.
  intros d Hvalid Hnodes Hlen Hcounts Hbound. unfold trace_of.
  rewrite (generate_run env self test_size distributions with_debugging_logs
             is_async raise_exceptions run_config counts ns st
             Hvalid Hnodes Hlen Hcounts Hbound).
  fold d. destruct (Executor.run _ _ _ _); cbn [snd].
  - rewrite submitted_app, submitted_trace_to_results. simpl. apply app_nil_r.
  - apply submitted_trace_to_results.
Qed.

Lemma reads_plan_jobs st current_nodes plan :
  reads (plan_jobs st current_nodes plan) = plan.
Proof.
  unfold reads, plan_jobs. rewrite <- list_fmap_compose.
  induction plan as [|[r i] plan IH]; simpl; [reflexivity|]. f_equal. exact IH.
Qed.

Lemma partition_plan_seed distributions counts test_size r i :
  Forall (fun n => n <= test_size) counts ->
  In (r, i) (partition_plan distributions counts) -> Z.of_nat i < test_size.
Proof.
  intros Hbound. unfold partition_plan. rewrite in_flat_map.
  intros ([[r' p] n] & Hin & Hri). simpl in Hri.
  apply list_elem_of_In, list_elem_of_fmap in Hri as (i' & Heq & Hi').
  injection Heq as -> ->.
  apply list_elem_of_In in Hi'. unfold range in Hi'. apply in_seq in Hi'.
  assert (Hn : In n counts).
  { apply list_elem_of_In. apply list_elem_of_In in Hin.
    apply elem_of_zip_r in Hin. exact Hin. }
  rewrite List.Forall_forall in Hbound. specialize (Hbound n Hn). simpl in Hbound. lia.
Qed.

Lemma filler_plan_seed env test_size distributions total r i :
  In (r, i) (filler_plan env test_size distributions total) ->
  (total <= i)%nat /\ Z.of_nat i < test_size.
Proof.
  unfold filler_plan. destruct (Z.leb_spec (Z.of_nat total) test_size); [|contradiction].
  intros Hin. apply list_elem_of_In, elem_of_zip_r in Hin. simpl in Hin.
  apply list_elem_of_In, in_seq in Hin. lia.
Qed.
End Submitted.

(** C2.  The partition step does submit [round(probability * test_size)]
    jobs per strategy, in mapping order, but each strategy's batch reads
    the seed list from position 0 again.  With weights 0.5 and 0.5 and
    [test_size = 2] both jobs are handed seed bundle 0 and bundle 1 is
    handed to nobody. *)
Lemma partition_reuses_seed_bundles :
  let r := TestsetGenerator.generate example_env example_generator 2 (Some halves)
             None None None None example_store in
  (fun job => (job_name job, job_seed job)) <$> submitted (trace_of r) =
    [("SimpleEvolution-0", 0%nat); ("ReasoningEvolution-0", 0%nat)] /\
  ~ NoDup (job_seed <$> submitted (trace_of r)).
Proof.
  split; [vm_compute; reflexivity|].
  intros Hnd. vm_compute in Hnd.
  apply NoDup_cons in Hnd as [Hnotin _]. apply Hnotin. left.
Qed.

(** C3.  For [test_size = 10] and weights 0.5, 0.25, 0.25 on strategies
    [a], [b], [c], the partition pass submits five jobs of [a], two of [b]
    and two of [c], nine in all, and [generate] then submits one filler
    job, on seed 9, for a strategy drawn from the mapping's keys: ten jobs. *)
Theorem generate_ten_jobs env self a b c with_debugging_logs is_async
    raise_exceptions run_config ns st :
  let d := [(a, f0_5); (b, f0_25); (c, f0_25)] in
  let main := [(a, 0); (a, 1); (a, 2); (a, 3); (a, 4); (b, 0); (b, 1); (c, 0); (c, 1)]%nat in
  get_random_nodes env 10 = Ok ns ->
  length ns = 10%nat ->
  (forall exec st0,
     reads (submitted (trace_of (TestsetGenerator.partition_pass 10 d
                                   (seeds ns) exec st0))) = main /\
     (result_of (TestsetGenerator.partition_pass 10 d (seeds ns) exec st0)) =
       Ok (add_jobs exec (plan_jobs st0 (seeds ns) main), 9%nat)) /\
  exists filler,
    In filler [a; b; c] /\
    reads (submitted (trace_of (TestsetGenerator.generate env self 10 (Some d)
                                  with_debugging_logs is_async raise_exceptions
                                  run_config st))) = main ++ [(filler, 9%nat)].
Proof.
  intros d main Hnodes Hlen.
  assert (Hcounts : counts_of 10 d [5; 2; 2]) by (repeat constructor).
  assert (Hbound : Forall (fun n => n <= 10) [5; 2; 2]).
  { repeat constructor; lia. }
  split.
  - intros exec st0.
    assert (Hb : Forall (fun n => (Z.to_nat n <= length (seeds ns))%nat) [5; 2; 2]).
    { unfold seeds. rewrite length_map, Hlen. repeat constructor; simpl; lia. }
    rewrite (partition_pass_ok (seeds ns) 10 d [5; 2; 2] exec st0 Hcounts Hb).
    unfold trace_of, result_of. cbn [fst snd].
    rewrite submitted_jobs, reads_plan_jobs. split; reflexivity.
  - exists ([a; b; c] !!! (random env 0 mod 3)%nat). split.
    + assert (Hlt : (random env 0 mod 3 < 3)%nat) by (apply Nat.mod_upper_bound; lia).
      destruct (random env 0 mod 3)%nat as [|[|[|k]]]; simpl; auto; lia.
    + rewrite (generate_submits env self 10 (Some d) with_debugging_logs is_async
                 raise_exceptions run_config [5; 2; 2] ns st); try assumption.
      * unfold generate_jobs. rewrite reads_plan_jobs. reflexivity.
      * vm_compute. reflexivity.
Qed.

Lemma generate_ten_jobs_witness :
  exists filler,
    In filler [simple; reasoning; multi_context] /\
    reads (submitted (trace_of (TestsetGenerator.generate example_env example_generator 10
             (Some [(simple, f0_5); (reasoning, f0_25); (multi_context, f0_25)])
             None None None None example_store))) =
    [(simple, 0); (simple, 1); (simple, 2); (simple, 3); (simple, 4);
     (reasoning, 0); (reasoning, 1); (multi_context, 0); (multi_context, 1)]%nat
    ++ [(filler, 9%nat)].
Proof.
  apply (generate_ten_jobs example_env example_generator simple reasoning multi_context
           None None None None (seq 0 10) example_store); reflexivity.
Defined.

(** C4 (as amended).  For a distribution passing validation and a positive
    [test_size], with [test_size] seed bundles drawn, when no strategy's
    rounded count [round(probability * test_size)] exceeds [test_size]:
    every seed position read, in the partition pass and in the filler
    pass, is below [test_size], and [generate] raises nothing but the
    error of a failed job. *)
Theorem generate_seed_reads_in_bounds
    env self test_size distributions with_debugging_logs is_async
    raise_exceptions run_config counts ns st :
  let d := default DEFAULT_DISTRIBUTION distributions in
  let r := TestsetGenerator.generate env self test_size distributions
             with_debugging_logs is_async raise_exceptions run_config st in
  check_if_sum_is_close (TestsetGenerator.values d) f1_0 3 = true ->
  0 < test_size ->
  get_random_nodes env test_size = Ok ns ->
  length ns = Z.to_nat test_size ->
  counts_of test_size d counts ->
  Forall (fun n => n <= test_size) counts ->
  (forall job, In job (submitted (trace_of r)) -> Z.of_nat (job_seed job) < test_size) /\
  (forall e, result_of r = Raise e -> exists i job, evolve env i job = Fails e).
Proof.
  intros d r Hvalid Hpos Hnodes Hlen Hcounts Hbound. split.
  - intros job Hin. unfold r in Hin.
    rewrite (generate_submits env self test_size distributions with_debugging_logs
               is_async raise_exceptions run_config counts ns st
               Hvalid Hnodes Hlen Hcounts Hbound) in Hin.
    fold d in Hin. unfold generate_jobs, plan_jobs in Hin.
    apply list_elem_of_In, list_elem_of_fmap in Hin as ([ev i] & -> & Hp).
    apply list_elem_of_In in Hp. unfold generate_plan in Hp. simpl.
    apply in_app_or in Hp as [Hp|Hp].
    + eapply partition_plan_seed; eassumption.
    + eapply filler_plan_seed; eassumption.
  - intros e He. unfold result_of, r in He.
    rewrite (generate_run env self test_size distributions with_debugging_logs
               is_async raise_exceptions run_config counts ns st
               Hvalid Hnodes Hlen Hcounts Hbound) in He.
    destruct (Executor.run _ _ _ _) as [rows|e'] eqn:Hr; simpl in He; [discriminate|].
    injection He as ->. apply run_raise in Hr as (_ & i & job & _ & Hf). eauto.
Qed.

Lemma generate_seed_reads_in_bounds_witness :
  let r := TestsetGenerator.generate example_env example_generator 3 (Some halves)
             None None None None example_store in
  (forall job, In job (submitted (trace_of r)) -> Z.of_nat (job_seed job) < 3) /\
  (forall e, result_of r = Raise e -> exists i job, evolve example_env i job = Fails e).
Proof.
  apply (generate_seed_reads_in_bounds example_env example_generator 3 (Some halves)
           None None None None [2; 2] (seq 0 3) example_store).
  - vm_compute. reflexivity.
  - lia.
  - reflexivity.
  - reflexivity.
  - repeat constructor.
  - repeat constructor; lia.
Defined.

(** C4 (as stated) fails.  Weights 2.0 and -1.0 sum to 1.0 and pass
    validation; with [test_size = 1] one seed bundle is drawn, the first
    strategy gets [round(2.0) = 2] jobs, and the second of them reads
    position 1.  The same happens without a negative weight: the single
    weight 2049/2048 passes validation, and with [test_size = 2048] it gets
    2049 jobs, the last of which reads position 2048. *)
Lemma generate_reads_past_the_seeds :
  (check_if_sum_is_close (TestsetGenerator.values two_minus_one) f1_0 3 = true /\
   get_random_nodes example_env 1 = Ok [0%nat] /\
   job_count (float_of_scaled 2 0) 1 = Ok 2 /\
   TestsetGenerator.submit_evolve (seeds [0%nat]) simple 1 example_exec example_store =
     (Raise (IndexError [text "list index out of range"]), example_store, []) /\
   result_of (TestsetGenerator.generate example_env example_generator 1
                (Some two_minus_one) None None None None example_store) =
     Raise (IndexError [text "list index out of range"])) /\
  (check_if_sum_is_close (TestsetGenerator.values slightly_over_one) f1_0 3 = true /\
   length (seeds (seq 0 2048)) = 2048%nat /\
   job_count (float_of_scaled 2049 (-11)) 2048 = Ok 2049 /\
   result_of (TestsetGenerator.generate example_env example_generator 2048
                (Some slightly_over_one) None None None None example_store) =
     Raise (IndexError [text "list index out of range"])).
Proof.
  repeat split; vm_compute; reflexivity.
Qed.

(** ** Validation of the weights *)

(** The validator modelled above is the tolerance test of the spec: the
    sum is a finite number within [10^-num_places] of [close_to]. *)
Lemma check_if_sum_is_close_spec values close_to num_places :
  check_if_sum_is_close values close_to num_places = true <->
  exists s c, number_to_Q (sum values) = Some s /\ float_to_Q close_to = Some c /\
              (Qabs (s - c) <= Qpower 10 (- num_places))%Q.
Proof.
  unfold check_if_sum_is_close. split.
  - destruct (number_to_Q (sum values)) as [s|]; [|discriminate].
    destruct (float_to_Q close_to) as [c|]; [|discriminate].
    intros H. exists s, c. repeat split. apply Qle_bool_iff, H.
  - intros (s & c & -> & -> & H). apply Qle_bool_iff, H.
Qed.

(** The literals of the default mapping are exact in binary64. *)
Lemma literals_exact :
  float_lit 5 10 = f0_5 /\ float_lit 25 100 = f0_25 /\ float_lit 1 1 = f1_0.
Proof. repeat split; vm_compute; reflexivity. Qed.

(** At the call made by [generate]: the sum is within [1/1000] of [1]. *)
Lemma validation_is_tolerance values :
  check_if_sum_is_close values f1_0 3 = true <->
  exists s, number_to_Q (sum values) = Some s /\ (Qabs (s - 1) <= 1 # 1000)%Q.
Proof.
  rewrite check_if_sum_is_close_spec.
  assert (Hone : (inject_Z (Z.pos 4503599627370496) * Qpower 2 (-52) == 1)%Q)
    by (vm_compute; reflexivity).
  split.
  - intros (s & c & Hs & Hc & H). exists s. split; [exact Hs|].
    injection Hc as <-. rewrite Hone in H. exact H.
  - intros (s & Hs & H). exists s, (inject_Z (Z.pos 4503599627370496) * Qpower 2 (-52))%Q.
    split; [exact Hs|]. split; [reflexivity|]. rewrite Hone. exact H.
Qed.

(** Out of tolerance: the error, and nothing else. *)
Lemma generate_rejects env self test_size distributions
    with_debugging_logs is_async raise_exceptions run_config st :
  let d := default DEFAULT_DISTRIBUTION distributions in
  check_if_sum_is_close (TestsetGenerator.values d) f1_0 3 = false ->
  TestsetGenerator.generate env self test_size distributions
    with_debugging_logs is_async raise_exceptions run_config st =
  (Raise (sum_error d), st, []).
Proof.
  intros d H. unfold TestsetGenerator.generate. fold d. cbv zeta.
  rewrite H. reflexivity.
Qed.

(** Within tolerance: the run goes on to configure the docstore. *)
Lemma generate_proceeds env self test_size distributions
    with_debugging_logs is_async raise_exceptions run_config st :
  let d := default DEFAULT_DISTRIBUTION distributions in
  check_if_sum_is_close (TestsetGenerator.values d) f1_0 3 = true ->
  exists t,
    trace_of (TestsetGenerator.generate env self test_size distributions
                with_debugging_logs is_async raise_exceptions run_config st) =
    docstore_set_run_config (resolve_run_config run_config) :: t.
Proof.
  intros d H. unfold TestsetGenerator.generate. fold d. cbv zeta.
  rewrite H. cbn [negb].
  erewrite bind_Ok; [|reflexivity].
  unfold trace_of. cbn [snd app]. eexists. reflexivity.
Qed.

(** C5.  [generate] raises the [ValueError] that reports the computed sum
    exactly when the sum of the weights is out of the 3-decimal tolerance
    around 1.0.  When it does, nothing has happened yet: no collaborator
    was called (no run config set on the docstore, no strategy initialised,
    no job submitted) and no strategy object was changed.  When the sum is
    within tolerance the run goes on past validation, to setting the
    docstore's run config.  Within tolerance means: the computed sum is a
    finite number at most [1/1000] away from 1. *)
Theorem generate_validates_first env self test_size distributions
    with_debugging_logs is_async raise_exceptions run_config st :
  let d := default DEFAULT_DISTRIBUTION distributions in
  let r := TestsetGenerator.generate env self test_size distributions
             with_debugging_logs is_async raise_exceptions run_config st in
  (check_if_sum_is_close (TestsetGenerator.values d) f1_0 3 = false ->
   r = (Raise (sum_error d), st, [])) /\
  (check_if_sum_is_close (TestsetGenerator.values d) f1_0 3 = true ->
   exists t, trace_of r = docstore_set_run_config (resolve_run_config run_config) :: t) /\
  (r = (Raise (sum_error d), st, []) <->
   check_if_sum_is_close (TestsetGenerator.values d) f1_0 3 = false) /\
  (check_if_sum_is_close (TestsetGenerator.values d) f1_0 3 = true <->
   exists s, number_to_Q (sum (TestsetGenerator.values d)) = Some s /\
             (Qabs (s - 1) <= 1 # 1000)%Q).
Proof.
  intros d r.
  split; [apply generate_rejects|]. split; [apply generate_proceeds|].
  split; [|apply validation_is_tolerance].
  split; [|apply generate_rejects].
  intros Hr. destruct (check_if_sum_is_close _ _ _) eqn:Hc; [|reflexivity].
  destruct (generate_proceeds env self test_size distributions with_debugging_logs
              is_async raise_exceptions run_config st Hc) as [t Ht].
  fold r in Ht. rewrite Hr in Ht. discriminate.
Qed.

Lemma generate_validates_first_witness :
  TestsetGenerator.generate example_env example_generator 10 (Some nine_tenths)
    None None None None example_store =
  (Raise (sum_error nine_tenths), example_store, []).
Proof.
  apply (generate_validates_first example_env example_generator 10 (Some nine_tenths)
           None None None None example_store).
  vm_compute. reflexivity.
Defined.

(** Sums of 0.9 and 1.1 are rejected, a sum of 1.0 is accepted. *)
Lemma validation_examples :
  check_if_sum_is_close (TestsetGenerator.values nine_tenths) f1_0 3 = false /\
  check_if_sum_is_close (TestsetGenerator.values eleven_tenths) f1_0 3 = false /\
  check_if_sum_is_close (TestsetGenerator.values DEFAULT_DISTRIBUTION) f1_0 3 = true /\
  check_if_sum_is_close [] f1_0 3 = false.
Proof. repeat split; vm_compute; reflexivity. Qed.

(** C10.  Called without [distributions], both document entry points hand
    the converted documents to the docstore and then fail validation: the
    default mapping is empty, its sum is the int 0, and [generate] raises
    the [ValueError] before doing anything else.  The call to
    [add_documents], one converted document per input document, has been
    made by then. *)
Theorem generate_with_docs_default_fails env self test_size with_debugging_logs
    is_async raise_exceptions run_config st :
  (forall documents : list LCDocument,
     TestsetGenerator.generate_with_langchain_docs env self documents test_size None
       with_debugging_logs is_async raise_exceptions run_config st =
     (Raise (sum_error []), st,
      [docstore_add_documents (from_langchain_document <$> documents)]) /\
     length (from_langchain_document <$> documents) = length documents) /\
  (forall documents : list LlamaindexDocument,
     TestsetGenerator.generate_with_llamaindex_docs env self documents test_size None
       with_debugging_logs is_async raise_exceptions run_config st =
     (Raise (sum_error []), st,
      [docstore_add_documents (from_llamaindex_document <$> documents)]) /\
     length (from_llamaindex_document <$> documents) = length documents) /\
  sum_error [] =
    ValueError [text "distributions passed do not sum to 1.0 [got "; number (inl 0);
                text "]. Please check the distributions."].
Proof.
  split; [|split; [|reflexivity]]; intros documents; (split; [|apply length_fmap]).
  - unfold TestsetGenerator.generate_with_langchain_docs. cbv zeta.
    erewrite bind_run; [| reflexivity |].
    2:{ apply (generate_rejects env self test_size (Some [])). reflexivity. }
    reflexivity.
  - unfold TestsetGenerator.generate_with_llamaindex_docs. cbv zeta.
    erewrite bind_run; [| reflexivity |].
    2:{ apply (generate_rejects env self test_size (Some [])). reflexivity. }
    reflexivity.
Qed.

(** ** Failure policy *)

Lemma keep_rows_no_nan rows : ~ In NaN (keep_rows rows).
Proof.
  unfold keep_rows. intros Hin. apply List.filter_In in Hin as [_ H]. discriminate.
Qed.

(** C6 (as amended).  In a run that reaches the executor: when the caller
    passes [raise_exceptions=False], each job that exhausts its retries
    contributes the NaN sentinel, [generate] returns, and the sentinels are
    dropped from the dataset.  When the flag is not passed it defaults to
    [True], and then, as when [True] is passed, the first failure in
    submission order is raised by [generate]. *)
Theorem generate_failure_policy
    env self test_size distributions with_debugging_logs is_async
    raise_exceptions run_config counts ns st :
  let d := default DEFAULT_DISTRIBUTION distributions in
  let r := TestsetGenerator.generate env self test_size distributions
             with_debugging_logs is_async raise_exceptions run_config st in
  let jobs := generate_jobs env self test_size d counts ns st in
  check_if_sum_is_close (TestsetGenerator.values d) f1_0 3 = true ->
  get_random_nodes env test_size = Ok ns ->
  length ns = Z.to_nat test_size ->
  counts_of test_size d counts ->
  Forall (fun n => n <= test_size) counts ->
  (raise_exceptions = Some false ->
   result_of r =
     Ok {| test_data := keep_rows (imap (fun i job => sentinel (evolve env i job)) jobs) |}
   /\ ~ In NaN (keep_rows (imap (fun i job => sentinel (evolve env i job)) jobs))) /\
  (raise_exceptions = None \/ raise_exceptions = Some true ->
   forall i job e,
     jobs !! i = Some job ->
     evolve env i job = Fails e ->
     (forall i' job', (i' < i)%nat -> jobs !! i' = Some job' ->
                      exists v, evolve env i' job' = Returns v) ->
     result_of r = Raise e).
Proof.
  intros d r jobs Hvalid Hnodes Hlen Hcounts Hbound.
  pose proof (generate_run env self test_size distributions with_debugging_logs
                is_async raise_exceptions run_config counts ns st
                Hvalid Hnodes Hlen Hcounts Hbound) as Hrun.
  fold d in Hrun. fold jobs in Hrun. fold r in Hrun.
  split.
  - intros ->. split; [|apply keep_rows_no_nan].
    unfold result_of. rewrite Hrun. simpl. rewrite run_lenient. reflexivity.
  - intros Hre i job e Hi Hf Hbefore.
    assert (Hstrict : default true raise_exceptions = true).
    { destruct Hre as [-> | ->]; reflexivity. }
    unfold result_of. rewrite Hrun, Hstrict.
    rewrite (run_strict_first_failure env jobs 0 i job e Hi Hf Hbefore). reflexivity.
Qed.

Lemma generate_failure_policy_witness :
  result_of (TestsetGenerator.generate failing_env example_generator 1 (Some all_simple)
               None None (Some false) None example_store) =
  Ok {| test_data := [] |}.
Proof.
  apply (generate_failure_policy failing_env example_generator 1 (Some all_simple)
           None None (Some false) None [1] [0%nat] example_store).
  - vm_compute. reflexivity.
  - reflexivity.
  - reflexivity.
  - repeat constructor.
  - repeat constructor. lia.
  - reflexivity.
Defined.

(** C6 (as stated) fails: a caller who does not pass the flag gets the
    raising policy.  One job, which exhausts its retries: [generate]
    raises its error instead of returning a dataset without the row. *)
Lemma generate_default_policy_raises :
  evolve failing_env 0
    (TestsetGenerator.job_for simple (unbound "SimpleEvolution" false) 0
       {| root_node := 0%nat; nodes := [0%nat] |}) =
    Fails (Exception [text "MaxRetriesExceeded"]) /\
  result_of (TestsetGenerator.generate failing_env example_generator 1 (Some all_simple)
               None None None None example_store) =
    Raise (Exception [text "MaxRetriesExceeded"]).
Proof. split; vm_compute; reflexivity. Qed.

(** ** Binding collaborators *)

Section InitEvolution.
Import TestsetGenerator.

Lemma init_evolution_fields_bound self e :
  is_Some (Evolution.generator_llm e) -> init_evolution_fields self e = e.
Proof. intros [llm H]. unfold init_evolution_fields. rewrite H. reflexivity. Qed.

Lemma init_evolution_fields_binds self e :
  is_Some (Evolution.generator_llm (init_evolution_fields self e)).
Proof.
  unfold init_evolution_fields.
  destruct (Evolution.generator_llm e) as [llm|] eqn:H; simpl; [rewrite H|]; eauto.
Qed.

Lemma init_evolution_fields_idempotent self e :
  init_evolution_fields self (init_evolution_fields self e) =
  init_evolution_fields self e.
Proof. apply init_evolution_fields_bound, init_evolution_fields_binds. Qed.

Lemma init_evolution_fields_ready self e :
  Evolution.generator_llm e = None ->
  EvolutionMethods.filters_unset (init_evolution_fields self e) = false.
Proof.
  intros H. unfold init_evolution_fields, EvolutionMethods.filters_unset. rewrite H.
  simpl. destruct (Evolution.node_filter e), (Evolution.question_filter e),
    (Evolution.is_ComplexEvolution e), (Evolution.evolution_filter e); reflexivity.
Qed.
End InitEvolution.

(** C8.  [init_evolution] skips a strategy whose generation model is
    bound: the strategy object, and the whole store, stay as they are.
    Calling it twice leaves the same state as calling it once.  After one
    call on a composite strategy with no generation model, its generation
    model, docstore, question filter, node filter and evolution filter are
    all bound. *)
Theorem init_evolution_idempotent self r st :
  (forall e, st !! r = Some e -> is_Some (Evolution.generator_llm e) ->
     TestsetGenerator.init_evolution self r st = (Ok tt, st, [])) /\
  (TestsetGenerator.init_evolution self r;; TestsetGenerator.init_evolution self r) st =
    TestsetGenerator.init_evolution self r st /\
  (forall e, st !! r = Some e ->
     Evolution.generator_llm e = None ->
     Evolution.is_ComplexEvolution e = true ->
     exists e', store_of (TestsetGenerator.init_evolution self r st) !! r = Some e' /\
       Evolution.generator_llm e' = Some (TestsetGenerator.generator_llm self) /\
       is_Some (Evolution.docstore e') /\
       is_Some (Evolution.question_filter e') /\
       is_Some (Evolution.node_filter e') /\
       is_Some (Evolution.evolution_filter e')).
Proof.
  unfold TestsetGenerator.init_evolution, update_evolution. split; [|split].
  - intros e He Hbound. f_equal. f_equal. apply alter_id. intros x Hx.
    rewrite He in Hx. injection Hx as <-. apply init_evolution_fields_bound, Hbound.
  - unfold mbind, M_bind, bind. cbn [app]. f_equal. f_equal.
    apply alter_id. intros x Hx.
    apply lookup_alter_Some in Hx as [(_ & y & _ & ->)|(Hne & _)]; [|congruence].
    apply init_evolution_fields_idempotent.
  - intros e He Hllm Hcomplex. unfold store_of. cbn [fst snd].
    exists (TestsetGenerator.init_evolution_fields self e).
    rewrite lookup_alter_eq, He. split; [reflexivity|].
    unfold TestsetGenerator.init_evolution_fields. rewrite Hllm, Hcomplex. simpl.
    destruct (Evolution.docstore e), (Evolution.question_filter e),
      (Evolution.node_filter e), (Evolution.evolution_filter e); eauto 10.
Qed.

Lemma init_evolution_idempotent_witness :
  (TestsetGenerator.init_evolution example_generator reasoning
     (store_of (TestsetGenerator.init_evolution example_generator reasoning example_store))
   = (Ok tt,
      store_of (TestsetGenerator.init_evolution example_generator reasoning example_store),
      [])) /\
  (exists e',
     store_of (TestsetGenerator.init_evolution example_generator reasoning example_store)
       !! reasoning = Some e' /\
     Evolution.generator_llm e' = Some (TestsetGenerator.generator_llm example_generator) /\
     is_Some (Evolution.docstore e') /\
     is_Some (Evolution.question_filter e') /\
     is_Some (Evolution.node_filter e') /\
     is_Some (Evolution.evolution_filter e')).
Proof.
  split.
  - apply (proj1 (init_evolution_idempotent example_generator reasoning
             (store_of (TestsetGenerator.init_evolution example_generator reasoning
                          example_store)))
             (TestsetGenerator.init_evolution_fields example_generator
                (unbound "ReasoningEvolution" true))).
    + reflexivity.
    + eexists. reflexivity.
  - apply (proj2 (proj2 (init_evolution_idempotent example_generator reasoning
             example_store)) (unbound "ReasoningEvolution" true)); reflexivity.
Defined.

(** ** From the returned dataset back to the raw results *)

Section Inversion.
Import TestsetGenerator.

Lemma bind_inv_Ok {A B} (m : M A) (k : A -> M B) st b st2 t :
  (m ≫= k) st = (Ok b, st2, t) ->
  exists a st1 t1 t2,
    m st = (Ok a, st1, t1) /\ k a st1 = (Ok b, st2, t2) /\ t = t1 ++ t2.
Proof.
  unfold mbind, M_bind, bind.
  destruct (m st) as [[[a|e] st1] t1]; [|discriminate].
  destruct (k a st1) as [[r st2'] t2] eqn:Hk. intros H. injection H as -> -> <-.
  exists a, st1, t1, t2. rewrite Hk. repeat split.
Qed.

Lemma grows_refl exec : grows exec exec [].
Proof. split; [symmetry; apply app_nil_r|reflexivity]. Qed.

Lemma grows_trans exec1 exec2 exec3 t1 t2 :
  grows exec1 exec2 t1 -> grows exec2 exec3 t2 -> grows exec1 exec3 (t1 ++ t2).
Proof.
  intros [Hj1 Hr1] [Hj2 Hr2]. split; [|congruence].
  rewrite Hj2, Hj1, submitted_app, app_assoc. reflexivity.
Qed.

Lemma submit_evolve_grows current_nodes evolution i exec st exec' st' t :
  submit_evolve current_nodes evolution i exec st = (Ok exec', st', t) ->
  grows exec exec' t.
Proof.
  unfold submit_evolve, index. destruct (current_nodes !! i) as [cn|].
  - intros H. vm_compute in H. injection H as <- _ <-. split; reflexivity.
  - intros H. vm_compute in H. discriminate.
Qed.

Lemma submit_loop_grows {A} (f : A -> nat -> evolution_ref * nat) current_nodes
    (xs : list A) : forall exec total st exec' total' st' t,
  for_each xs
    (fun x '(exec, total_evolutions) =>
       exec ← submit_evolve current_nodes (f x total_evolutions).1
                (f x total_evolutions).2 exec;
       mret (exec, S total_evolutions))
    (exec, total) st = (Ok (exec', total'), st', t) ->
  grows exec exec' t.
Proof.
  induction xs as [|x xs IH]; intros exec total st exec' total' st' t H.
  - injection H as <- _ _ <-. apply grows_refl.
  - cbn [for_each] in H.
    apply bind_inv_Ok in H as ([exec1 total1] & st1 & t1 & t2 & Hbody & Hrest & ->).
    apply bind_inv_Ok in Hbody as (exec1' & st1' & t1' & t2' & Hsub & Hret & ->).
    injection Hret as <- _ _ <-. rewrite app_nil_r.
    eapply grows_trans; [eapply submit_evolve_grows, Hsub|eapply IH, Hrest].
Qed.

Lemma partition_loop_grows test_size current_nodes distributions :
  forall exec total st exec' total' st' t,
  for_each distributions
    (fun '(evolution, probability) '(exec, total_evolutions) =>
       x ← lift (float_mul_int probability test_size);
       n ← lift (round x);
       for_each (range n)
         (fun i '(exec, total_evolutions) =>
            exec ← submit_evolve current_nodes evolution i exec;
            mret (exec, S total_evolutions))
         (exec, total_evolutions))
    (exec, total) st = (Ok (exec', total'), st', t) ->
  grows exec exec' t.
Proof.
  induction distributions as [|[evolution probability] ds IH];
    intros exec total st exec' total' st' t H.
  - injection H as <- _ _ <-. apply grows_refl.
  - cbn [for_each] in H.
    apply bind_inv_Ok in H as ([exec1 total1] & st1 & t1 & t2 & Hbody & Hrest & ->).
    apply bind_inv_Ok in Hbody as (x & sx & tx & t3 & Hx & Hbody & ->).
    apply bind_inv_Ok in Hbody as (n & sn & tn & t4 & Hn & Hbatch & ->).
    unfold lift in Hx, Hn. injection Hx as _ _ <-. injection Hn as _ _ <-.
    cbn [app].
    eapply grows_trans; [|eapply IH, Hrest].
    eapply (submit_loop_grows (fun i _ => (evolution, i))), Hbatch.
Qed.

Lemma choices_loop_silent env (population : list evolution_ref) js :
  forall picked st r st' t,
  for_each js
    (fun j picked =>
       x ← index population (random env j mod length population)%nat;
       mret (picked ++ [x]))
    picked st = (r, st', t) -> t = [].
Proof.
  induction js as [|j js IH]; intros picked st r st' t H.
  - injection H as _ _ <-. reflexivity.
  - cbn [for_each] in H. unfold mbind at 1 in H. unfold M_bind, bind in H.
    unfold index in H at 1.
    destruct (population !! _) as [x|].
    + unfold mbind at 1 in H. unfold M_bind, bind in H. cbn in H.
      destruct (for_each js _ _ st) as [[r2 st2] t2] eqn:Hrest.
      injection H as _ _ <-. eapply IH, Hrest.
    + cbn in H. injection H as _ _ <-. reflexivity.
Qed.

Lemma choices_silent env (population : list evolution_ref) k st r st' t :
  choices env population k st = (r, st', t) -> t = [].
Proof. unfold choices. apply choices_loop_silent. Qed.

Lemma filler_pass_grows env test_size distributions current_nodes exec total st
    exec' total' st' t :
  filler_pass env test_size distributions current_nodes exec total st =
    (Ok (exec', total'), st', t) ->
  grows exec exec' t.
Proof.
  unfold filler_pass. destruct (Z.of_nat total <=? test_size).
  - intros H.
    apply bind_inv_Ok in H as (ps & st1 & t1 & t2 & Hch & Hloop & ->).
    apply choices_silent in Hch as ->. cbn [app].
    eapply (submit_loop_grows (fun evolution total => (evolution, total))), Hloop.
  - intros H. injection H as <- _ _ <-. apply grows_refl.
Qed.

(** Whatever the inputs, a dataset returned by [generate] is made of the
    raw results of the jobs it submitted, with the sentinels filtered out. *)
Lemma generate_returns_kept_rows env self test_size distributions
    with_debugging_logs is_async raise_exceptions run_config st ds :
  let r := generate env self test_size distributions with_debugging_logs
             is_async raise_exceptions run_config st in
  result_of r = Ok ds ->
  exists raw,
    Executor.run env (default true raise_exceptions) 0 (submitted (trace_of r)) = Ok raw /\
    test_data ds = keep_rows raw.
Proof.
  intros r Hds. unfold result_of in Hds.
  destruct r as [[o st2] t] eqn:Hr. cbn [fst] in Hds. subst o.
  unfold r, generate in Hr. cbv zeta in Hr.
  destruct (check_if_sum_is_close _ _ _); cbn [negb] in Hr; [|discriminate].
  apply bind_inv_Ok in Hr as ([] & s1 & t1 & u1 & H1 & Hr & ->).
  injection H1 as <- <-.
  apply bind_inv_Ok in Hr as ([] & s2 & t2 & u2 & H2 & Hr & ->).
  rewrite init_loop_ok in H2. injection H2 as <- <-.
  apply bind_inv_Ok in Hr as ([] & s3 & t3 & u3 & H3 & Hr & ->).
  assert (Ht3 : submitted t3 = []).
  { destruct (default false with_debugging_logs); vm_compute in H3;
      injection H3 as _ <-; reflexivity. }
  apply bind_inv_Ok in Hr as ([] & s4 & t4 & u4 & H4 & Hr & ->).
  injection H4 as _ <-.
  apply bind_inv_Ok in Hr as (ns & s5 & t5 & u5 & H5 & Hr & ->).
  unfold lift in H5. injection H5 as _ _ <-.
  apply bind_inv_Ok in Hr as ([exec1 total1] & s6 & t6 & u6 & H6 & Hr & ->).
  apply partition_loop_grows in H6 as [Hj6 Hr6].
  apply bind_inv_Ok in Hr as ([exec2 total2] & s7 & t7 & u7 & H7 & Hr & ->).
  apply filler_pass_grows in H7 as [Hj7 Hr7].
  apply bind_inv_Ok in Hr as (raw & s8 & t8 & u8 & H8 & Hr & ->).
  unfold Executor.results in H8.
  apply bind_inv_Ok in H8 as ([] & s9 & t9 & u9 & H9 & H8 & ->).
  injection H9 as _ <-. unfold lift in H8.
  destruct (Executor.run env _ 0 _) as [raw'|] eqn:Hrun; [|discriminate].
  injection H8 as -> _ <-.
  apply bind_inv_Ok in Hr as (names & s10 & t10 & u10 & H10 & Hr & ->).
  rewrite names_loop_ok in H10. injection H10 as _ _ <-.
  apply bind_inv_Ok in Hr as ([] & s11 & t11 & u11 & H11 & Hr & ->).
  injection H11 as _ <-. injection Hr as <- _ <-.
  exists raw. split; [|reflexivity].
  unfold trace_of. cbn [snd]. rewrite !submitted_app, submitted_inits, Ht3.
  cbn [submitted omap app]. rewrite !app_nil_r.
  rewrite Hr7, Hr6, Hj7, Hj6 in Hrun. cbn [Executor.raise_exceptions Executor.jobs app] in Hrun.
  exact Hrun.
Qed.
End Inversion.

(** ** The empty-row filter *)

Lemma keep_rows_idempotent rows : keep_rows (keep_rows rows) = keep_rows rows.
Proof.
  unfold keep_rows. induction rows as [|row rows IH]; simpl; [reflexivity|].
  destruct (is_nan row) eqn:Hrow; simpl; [exact IH|]. rewrite Hrow. simpl.
  f_equal. exact IH.
Qed.

Lemma keep_rows_sublist rows : sublist (keep_rows rows) rows.
Proof.
  unfold keep_rows. induction rows as [|row rows IH]; simpl; [constructor|].
  destruct (is_nan row); simpl; constructor; exact IH.
Qed.

Lemma keep_rows_In rows row :
  In row (keep_rows rows) <-> In row rows /\ is_nan row = false.
Proof.
  unfold keep_rows. rewrite List.filter_In. split; intros [H1 H2]; split; try assumption.
  - destruct (is_nan row); [discriminate|reflexivity].
  - rewrite H2. reflexivity.
Qed.

(** C9.  Filtering out the empty rows twice gives what filtering once
    gives.  The filter keeps exactly the rows that are not the sentinel, in
    their original order.  A dataset returned by [generate] holds the raw
    results of the submitted jobs, in submission order, passed through that
    filter; and in a run that reaches the executor, whenever the executor
    returns raw results [generate] returns that dataset. *)
Theorem dataset_is_filtered_results :
  (forall rows, keep_rows (keep_rows rows) = keep_rows rows) /\
  (forall rows row, In row (keep_rows rows) <-> In row rows /\ is_nan row = false) /\
  (forall rows, sublist (keep_rows rows) rows) /\
  (forall env self test_size distributions with_debugging_logs is_async
          raise_exceptions run_config st ds,
     let r := TestsetGenerator.generate env self test_size distributions
                with_debugging_logs is_async raise_exceptions run_config st in
     result_of r = Ok ds ->
     exists raw,
       Executor.run env (default true raise_exceptions) 0 (submitted (trace_of r)) = Ok raw /\
       test_data ds = keep_rows raw) /\
  (forall env self test_size distributions with_debugging_logs is_async
          raise_exceptions run_config counts ns st raw,
     let d := default DEFAULT_DISTRIBUTION distributions in
     check_if_sum_is_close (TestsetGenerator.values d) f1_0 3 = true ->
     get_random_nodes env test_size = Ok ns ->
     length ns = Z.to_nat test_size ->
     counts_of test_size d counts ->
     Forall (fun n => n <= test_size) counts ->
     Executor.run env (default true raise_exceptions) 0
       (generate_jobs env self test_size d counts ns st) = Ok raw ->
     result_of (TestsetGenerator.generate env self test_size distributions
                  with_debugging_logs is_async raise_exceptions run_config st) =
       Ok {| test_data := keep_rows raw |}).
Proof.
  split; [exact keep_rows_idempotent|].
  split; [exact keep_rows_In|].
  split; [exact keep_rows_sublist|].
  split.
  - intros. eapply generate_returns_kept_rows. eassumption.
  - intros env self test_size distributions with_debugging_logs is_async
      raise_exceptions run_config counts ns st raw d Hvalid Hnodes Hlen Hcounts Hbound Hraw.
    unfold result_of.
    rewrite (generate_run env self test_size distributions with_debugging_logs
               is_async raise_exceptions run_config counts ns st
               Hvalid Hnodes Hlen Hcounts Hbound).
    fold d. rewrite Hraw. reflexivity.
Qed.

Lemma dataset_is_filtered_results_witness :
  exists raw,
    Executor.run sometimes_failing_env false 0
      (submitted (trace_of (TestsetGenerator.generate sometimes_failing_env
         example_generator 4 (Some halves) None None (Some false) None example_store)))
      = Ok raw /\
    [Row {| question := "SimpleEvolution-0"; answer := ""; contexts := [];
            metadata := [] |};
     Row {| question := "ReasoningEvolution-0"; answer := ""; contexts := [];
            metadata := [] |}] = keep_rows raw.
Proof.
  apply (proj1 (proj2 (proj2 (proj2 dataset_is_filtered_results)))
           sometimes_failing_env example_generator 4 (Some halves) None None
           (Some false) None example_store
           {| test_data :=
                [Row {| question := "SimpleEvolution-0"; answer := "";
                        contexts := []; metadata := [] |};
                 Row {| question := "ReasoningEvolution-0"; answer := "";
                        contexts := []; metadata := [] |}] |}).
  vm_compute. reflexivity.
Defined.

(** ** Saving and adapting *)

Section SaveAdapt.
Import TestsetGenerator.
Variable self : TestsetGenerator.t.
Variable cache_dir : option string.

Lemma assert_true b msg st : b = true -> assert b msg st = (Ok tt, st, []).
Proof. intros ->. reflexivity. Qed.

Lemma assert_false b msg st :
  b = false -> assert b msg st = (Raise (AssertionError [text msg]), st, []).
Proof. intros ->. reflexivity. Qed.

Lemma strategy_save_ok st r :
  EvolutionMethods.filters_unset (st !!! r) = false ->
  EvolutionMethods.save r cache_dir st = (Ok tt, st, [evolution_save r cache_dir]).
Proof.
  intros H. unfold EvolutionMethods.save. etransitivity.
  { eapply bind_run; [reflexivity|]. cbv beta. rewrite H. reflexivity. }
  reflexivity.
Qed.

Lemma save_one_ok st r :
  EvolutionMethods.filters_unset (st !!! r) = false ->
  (e ← get_evolution r;
   assert (bool_decide (is_Some (Evolution.node_filter e))) "NodeFilter is not set";;
   assert (bool_decide (is_Some (Evolution.question_filter e)))
     "QuestionFilter is not set";;
   (if Evolution.is_ComplexEvolution e then
      assert (bool_decide (is_Some (Evolution.evolution_filter e)))
        "EvolutionFilter is not set"
    else mret tt);;
   EvolutionMethods.save r cache_dir) st =
  (Ok tt, st, [evolution_save r cache_dir]).
Proof.
  intros H. pose proof H as H0. unfold EvolutionMethods.filters_unset in H0.
  destruct (Evolution.node_filter (st !!! r)) eqn:Hn; [|discriminate].
  destruct (Evolution.question_filter (st !!! r)) eqn:Hq; [|discriminate].
  etransitivity.
  { eapply bind_run; [reflexivity|]. cbv beta.
    eapply bind_run; [apply assert_true; rewrite Hn; reflexivity|].
    eapply bind_run; [apply assert_true; rewrite Hq; reflexivity|].
    eapply bind_run; [|apply strategy_save_ok, H].
    destruct (Evolution.is_ComplexEvolution (st !!! r)); [|reflexivity].
    destruct (Evolution.evolution_filter (st !!! r)); [reflexivity|discriminate]. }
  reflexivity.
Qed.

Lemma save_one_fails st r :
  EvolutionMethods.filters_unset (st !!! r) = true ->
  (e ← get_evolution r;
   assert (bool_decide (is_Some (Evolution.node_filter e))) "NodeFilter is not set";;
   assert (bool_decide (is_Some (Evolution.question_filter e)))
     "QuestionFilter is not set";;
   (if Evolution.is_ComplexEvolution e then
      assert (bool_decide (is_Some (Evolution.evolution_filter e)))
        "EvolutionFilter is not set"
    else mret tt);;
   EvolutionMethods.save r cache_dir) st =
  (Raise (AssertionError [text (save_assertion (st !!! r))]), st, []).
Proof.
  intros H. unfold EvolutionMethods.filters_unset in H. unfold save_assertion.
  destruct (Evolution.node_filter (st !!! r)) eqn:Hn.
  - destruct (Evolution.question_filter (st !!! r)) eqn:Hq.
    + destruct (Evolution.is_ComplexEvolution (st !!! r)) eqn:Hc; [|discriminate].
      destruct (Evolution.evolution_filter (st !!! r)) eqn:He; [discriminate|].
      etransitivity.
      { eapply bind_run; [reflexivity|]. cbv beta.
        eapply bind_run; [apply assert_true; rewrite Hn; reflexivity|].
        eapply bind_run; [apply assert_true; rewrite Hq; reflexivity|].
        eapply bind_Raise. rewrite Hc. apply assert_false. rewrite He. reflexivity. }
      reflexivity.
    + etransitivity.
      { eapply bind_run; [reflexivity|]. cbv beta.
        eapply bind_run; [apply assert_true; rewrite Hn; reflexivity|].
        eapply bind_Raise. apply assert_false. rewrite Hq. reflexivity. }
      reflexivity.
  - etransitivity.
    { eapply bind_run; [reflexivity|]. cbv beta.
      eapply bind_Raise. apply assert_false. rewrite Hn. reflexivity. }
    reflexivity.
Qed.

Lemma save_loop_fails st r post pre :
  Forall (fun r' => EvolutionMethods.filters_unset (st !!! r') = false) pre ->
  EvolutionMethods.filters_unset (st !!! r) = true ->
  for_each (pre ++ r :: post)
    (fun evolution _ =>
       e ← get_evolution evolution;
       assert (bool_decide (is_Some (Evolution.node_filter e))) "NodeFilter is not set";;
       assert (bool_decide (is_Some (Evolution.question_filter e)))
         "QuestionFilter is not set";;
       (if Evolution.is_ComplexEvolution e then
          assert (bool_decide (is_Some (Evolution.evolution_filter e)))
            "EvolutionFilter is not set"
        else mret tt);;
       EvolutionMethods.save evolution cache_dir)
    tt st =
  (Raise (AssertionError [text (save_assertion (st !!! r))]), st,
   (fun r' => evolution_save r' cache_dir) <$> pre).
Proof.
  intros Hpre Hr. induction Hpre as [|a pre Ha _ IH]; cbn [app for_each].
  - erewrite bind_Raise; [|apply save_one_fails, Hr]. reflexivity.
  - erewrite bind_run; [|apply save_one_ok, Ha|apply IH]. reflexivity.
Qed.

Lemma asserts_pass st :
  docstore_ready self ->
  assert (is_InMemoryDocumentStore (docstore self))
    "Must be an instance of in-memory docstore" st = (Ok tt, st, []) /\
  assert (bool_decide (is_Some (extractor (docstore self))))
    "Extractor is not set" st = (Ok tt, st, []).
Proof.
  intros [Hmem Hext]. unfold assert. rewrite Hmem.
  rewrite (bool_decide_eq_true_2 _ Hext). split; reflexivity.
Qed.

Lemma save_fails st r post pre :
  docstore_ready self ->
  Forall (fun r' => EvolutionMethods.filters_unset (st !!! r') = false) pre ->
  EvolutionMethods.filters_unset (st !!! r) = true ->
  save self (pre ++ r :: post) cache_dir st =
  (Raise (AssertionError [text (save_assertion (st !!! r))]), st,
   extractor_save cache_dir :: ((fun r' => evolution_save r' cache_dir) <$> pre)).
Proof.
  intros Hready Hpre Hr. destruct (asserts_pass st Hready) as [H1 H2].
  unfold save.
  erewrite bind_run; [|exact H1|].
  2:{ erewrite bind_run; [|exact H2|].
      2:{ erewrite bind_run; [|reflexivity|apply save_loop_fails; assumption].
          reflexivity. }
      reflexivity. }
  reflexivity.
Qed.

Variable language : string.

Lemma filters_unset_after_init e :
  EvolutionMethods.filters_unset (init_evolution_fields self e) = adapt_fails e.
Proof.
  unfold adapt_fails. destruct (Evolution.generator_llm e) as [llm|] eqn:H.
  - rewrite init_evolution_fields_bound; [reflexivity|]. rewrite H. eauto.
  - apply init_evolution_fields_ready, H.
Qed.

Lemma adapt_fails_after_init e :
  adapt_fails (init_evolution_fields self e) = adapt_fails e.
Proof.
  rewrite <- !filters_unset_after_init, init_evolution_fields_idempotent. reflexivity.
Qed.

(** The verdict on a strategy does not change while earlier strategies
    of the list, the same object included, are initialised. *)
Lemma verdict_alter st a r b :
  verdict st r b -> verdict (alter (init_evolution_fields self) a st) r b.
Proof.
  intros (e & He & Hb). destruct (decide (a = r)) as [->|Hne].
  - exists (init_evolution_fields self e). rewrite lookup_alter_eq, He. split; [reflexivity|].
    rewrite adapt_fails_after_init. exact Hb.
  - exists e. rewrite lookup_alter_ne by assumption. split; assumption.
Qed.

Lemma adapt_one st r b :
  verdict st r b ->
  (init_evolution self r;;
   EvolutionMethods.init r None None;;
   EvolutionMethods.adapt r language cache_dir) st =
  (if b then Raise (AssertionError [text "filter cannot be None"]) else Ok tt,
   alter (init_evolution_fields self) r st,
   evolution_init r None None ::
     (if b then [] else [evolution_adapt r language cache_dir])).
Proof.
  intros (e & He & Hb).
  assert (Hunset : EvolutionMethods.filters_unset
                     (alter (init_evolution_fields self) r st !!! r) = b).
  { rewrite lookup_total_alter_eq, He. simpl.
    rewrite filters_unset_after_init. exact Hb. }
  destruct b.
  - etransitivity.
    { eapply bind_run; [reflexivity|].
      eapply bind_run; [reflexivity|].
      unfold EvolutionMethods.adapt. eapply bind_run; [reflexivity|]. cbv beta.
      rewrite Hunset. reflexivity. }
    reflexivity.
  - etransitivity.
    { eapply bind_run; [reflexivity|].
      eapply bind_run; [reflexivity|].
      unfold EvolutionMethods.adapt. eapply bind_run; [reflexivity|]. cbv beta.
      rewrite Hunset. reflexivity. }
    reflexivity.
Qed.

Lemma adapt_loop_fails r post pre : forall st,
  Forall (fun r' => verdict st r' false) pre ->
  verdict st r true ->
  for_each (pre ++ r :: post)
    (fun evolution _ =>
       init_evolution self evolution;;
       EvolutionMethods.init evolution None None;;
       EvolutionMethods.adapt evolution language cache_dir)
    tt st =
  (Raise (AssertionError [text "filter cannot be None"]),
   init_all self (pre ++ [r]) st,
   adapt_calls cache_dir language pre ++ [evolution_init r None None]).
Proof.
  induction pre as [|a pre IH]; intros st Hpre Hr; cbn [app for_each].
  - erewrite bind_Raise; [|apply (adapt_one st r true Hr)]. reflexivity.
  - apply Forall_cons in Hpre as [Ha Hpre].
    erewrite bind_run; [|apply (adapt_one st a false Ha)|apply IH].
    + reflexivity.
    + eapply Forall_impl; [exact Hpre|]. intros x. apply verdict_alter.
    + apply verdict_alter, Hr.
Qed.

Lemma adapt_fails_late st r post pre :
  docstore_ready self ->
  Forall (fun r' => verdict st r' false) pre ->
  verdict st r true ->
  adapt self language (pre ++ r :: post) cache_dir st =
  (Raise (AssertionError [text "filter cannot be None"]),
   init_all self (pre ++ [r]) st,
   extractor_adapt language cache_dir ::
     adapt_calls cache_dir language pre ++ [evolution_init r None None]).
Proof.
  intros Hready Hpre Hr. destruct (asserts_pass st Hready) as [H1 H2].
  unfold adapt.
  erewrite bind_run; [|exact H1|].
  2:{ erewrite bind_run; [|exact H2|].
      2:{ erewrite bind_run; [|reflexivity|apply adapt_loop_fails; assumption].
          reflexivity. }
      reflexivity. }
  reflexivity.
Qed.

Lemma adapt_loop_ok rs : forall st,
  Forall (fun r' => verdict st r' false) rs ->
  for_each rs
    (fun evolution _ =>
       init_evolution self evolution;;
       EvolutionMethods.init evolution None None;;
       EvolutionMethods.adapt evolution language cache_dir)
    tt st =
  (Ok tt, init_all self rs st, adapt_calls cache_dir language rs).
Proof.
  induction rs as [|a rs IH]; intros st Hrs; cbn [for_each]; [reflexivity|].
  apply Forall_cons in Hrs as [Ha Hrs].
  erewrite bind_run; [|apply (adapt_one st a false Ha)|apply IH].
  - reflexivity.
  - eapply Forall_impl; [exact Hrs|]. intros x. apply verdict_alter.
Qed.

Lemma adapt_binds_and_succeeds st rs :
  docstore_ready self ->
  Forall (fun r' => verdict st r' false) rs ->
  adapt self language rs cache_dir st =
  (Ok tt, init_all self rs st,
   extractor_adapt language cache_dir :: adapt_calls cache_dir language rs).
Proof.
  intros Hready Hrs. destruct (asserts_pass st Hready) as [H1 H2].
  unfold adapt.
  erewrite bind_run; [|exact H1|].
  2:{ erewrite bind_run; [|exact H2|].
      2:{ erewrite bind_run; [|reflexivity|apply adapt_loop_ok; assumption].
          reflexivity. }
      reflexivity. }
  reflexivity.
Qed.
End SaveAdapt.

(** C7 (as amended).  With an in-memory docstore whose extractor is set:
    [save] fails with an [AssertionError] at the first strategy of the list
    that has an unset node filter, question filter or (composite kinds)
    evolution filter; by then it has called [save] on the extractor and on
    every earlier strategy, and it calls [save] on no later one.  [adapt]
    checks no filter itself: it calls [adapt] on the extractor first, then
    binds collaborators strategy by strategy, so a strategy without a
    generation model gets its filters and is adapted; [adapt] fails, in the
    strategy's own [adapt], at the first strategy whose generation model is
    bound while a filter is unset, after the extractor and every earlier
    strategy were adapted. *)
Theorem save_and_adapt_check_late self language cache_dir st pre r post :
  docstore_ready self ->
  (Forall (fun r' => EvolutionMethods.filters_unset (st !!! r') = false) pre ->
   EvolutionMethods.filters_unset (st !!! r) = true ->
   TestsetGenerator.save self (pre ++ r :: post) cache_dir st =
   (Raise (AssertionError [text (save_assertion (st !!! r))]), st,
    extractor_save cache_dir :: ((fun r' => evolution_save r' cache_dir) <$> pre))) /\
  (Forall (fun r' => verdict st r' false) pre ->
   verdict st r true ->
   TestsetGenerator.adapt self language (pre ++ r :: post) cache_dir st =
   (Raise (AssertionError [text "filter cannot be None"]),
    init_all self (pre ++ [r]) st,
    extractor_adapt language cache_dir ::
      adapt_calls cache_dir language pre ++ [evolution_init r None None])) /\
  (Forall (fun r' => verdict st r' false) (pre ++ r :: post) ->
   TestsetGenerator.adapt self language (pre ++ r :: post) cache_dir st =
   (Ok tt, init_all self (pre ++ r :: post) st,
    extractor_adapt language cache_dir ::
      adapt_calls cache_dir language (pre ++ r :: post))).
Proof.
  intros Hready. split; [|split].
  - intros Hpre Hr. apply save_fails; assumption.
  - intros Hpre Hr. apply adapt_fails_late; assumption.
  - intros Hall. apply adapt_binds_and_succeeds; assumption.
Qed.

Lemma save_and_adapt_check_late_witness :
  TestsetGenerator.save example_generator ([simple] ++ reasoning :: [multi_context]) None
    half_ready_store =
  (Raise (AssertionError [text "NodeFilter is not set"]), half_ready_store,
   [extractor_save None; evolution_save simple None]) /\
  TestsetGenerator.adapt example_generator "hindi" ([simple] ++ reasoning :: [multi_context])
    None hand_made_store =
  (Raise (AssertionError [text "filter cannot be None"]),
   init_all example_generator [simple; reasoning] hand_made_store,
   [extractor_adapt "hindi" None; evolution_init simple None None;
    evolution_adapt simple "hindi" None; evolution_init reasoning None None]).
Proof.
  split.
  - apply (save_and_adapt_check_late example_generator "" None half_ready_store
             [simple] reasoning [multi_context]).
    + split; [reflexivity|eexists; reflexivity].
    + repeat constructor.
    + reflexivity.
  - apply (save_and_adapt_check_late example_generator "hindi" None hand_made_store
             [simple] reasoning [multi_context]).
    + split; [reflexivity|eexists; reflexivity].
    + repeat constructor. eexists. split; reflexivity.
    + eexists. split; reflexivity.
Defined.

(** C7 (as stated) fails.  [save] on a single strategy with no filter
    raises only after the extractor's [save] has been called; with a ready
    strategy in front, that strategy has been saved too.  And [adapt] on a
    strategy with every filter unset and no generation model does not fail
    at all: it binds the filters and adapts the strategy. *)
Lemma save_touches_collaborators_first :
  (EvolutionMethods.filters_unset (example_store !!! simple) = true /\
   TestsetGenerator.save example_generator [simple] None example_store =
   (Raise (AssertionError [text "NodeFilter is not set"]), example_store,
    [extractor_save None])) /\
  (EvolutionMethods.filters_unset (half_ready_store !!! reasoning) = true /\
   TestsetGenerator.save example_generator [simple; reasoning] None half_ready_store =
   (Raise (AssertionError [text "NodeFilter is not set"]), half_ready_store,
    [extractor_save None; evolution_save simple None])) /\
  (EvolutionMethods.filters_unset (example_store !!! simple) = true /\
   TestsetGenerator.adapt example_generator "hindi" [simple] None example_store =
   (Ok tt, half_ready_store,
    [extractor_adapt "hindi" None; evolution_init simple None None;
     evolution_adapt simple "hindi" None])).
Proof. repeat split; vm_compute; reflexivity. Qed.

(** * Further properties *)

(** ** Stores and traces of composed computations *)

Lemma run_bind {A B} (m : M A) (k : A -> M B) st :
  (m ≫= k) st =
  match result_of (m st) with
  | Ok a =>
      (result_of (k a (store_of (m st))), store_of (k a (store_of (m st))),
       trace_of (m st) ++ trace_of (k a (store_of (m st))))
  | Raise e => (Raise e, store_of (m st), trace_of (m st))
  end.
Proof.
  unfold mbind, M_bind, bind, result_of, store_of, trace_of.
  destruct (m st) as [[[a|e] st1] t1]; cbn [fst snd]; [|reflexivity].
  destruct (k a st1) as [[r st2] t2]. reflexivity.
Qed.

Lemma keeps_ret {A} (a : A) : keeps_store (mret a : M A).
Proof. intros st. reflexivity. Qed.

Lemma keeps_raise {A} e : keeps_store (raise e : M A).
Proof. intros st. reflexivity. Qed.

Lemma keeps_emit ev : keeps_store (emit ev).
Proof. intros st. reflexivity. Qed.

Lemma keeps_lift {A} (o : outcome A) : keeps_store (lift o).
Proof. intros st. reflexivity. Qed.

Lemma keeps_get r : keeps_store (get_evolution r).
Proof. intros st. reflexivity. Qed.

Lemma keeps_bind {A B} (m : M A) (k : A -> M B) :
  keeps_store m -> (forall a, keeps_store (k a)) -> keeps_store (m ≫= k).
Proof.
  intros Hm Hk st. rewrite run_bind.
  destruct (result_of (m st)) as [a|e]; unfold store_of at 1; cbn [fst snd].
  - rewrite Hk. apply Hm.
  - apply Hm.
Qed.

Lemma keeps_for_each {A S} (body : A -> S -> M S) (xs : list A) :
  (forall x s, keeps_store (body x s)) -> forall s, keeps_store (for_each xs body s).
Proof.
  intros Hbody. induction xs as [|x xs IH]; intros s; cbn [for_each].
  - apply keeps_ret.
  - apply keeps_bind; [apply Hbody|exact IH].
Qed.

Lemma keeps_index {A} (xs : list A) i : keeps_store (index xs i).
Proof. unfold index. destruct (xs !! i); [apply keeps_ret|apply keeps_raise]. Qed.

Lemma keeps_choices env (population : list evolution_ref) k :
  keeps_store (choices env population k).
Proof.
  unfold choices. apply keeps_for_each. intros j picked.
  apply keeps_bind; [apply keeps_index|]. intros x. apply keeps_ret.
Qed.

Lemma keeps_submit_evolve current_nodes evolution i exec :
  keeps_store (TestsetGenerator.submit_evolve current_nodes evolution i exec).
Proof.
  unfold TestsetGenerator.submit_evolve.
  apply keeps_bind; [apply keeps_index|]. intros cn.
  apply keeps_bind; [apply keeps_get|]. intros e.
  unfold Executor.submit. apply keeps_bind; [apply keeps_emit|]. intros _. apply keeps_ret.
Qed.

Lemma keeps_partition_pass test_size distributions current_nodes exec :
  keeps_store (TestsetGenerator.partition_pass test_size distributions current_nodes exec).
Proof.
  unfold TestsetGenerator.partition_pass. apply keeps_for_each.
  intros [evolution probability] [exec0 total].
  apply keeps_bind; [apply keeps_lift|]. intros x.
  apply keeps_bind; [apply keeps_lift|]. intros n.
  apply keeps_for_each. intros i [exec1 total1].
  apply keeps_bind; [apply keeps_submit_evolve|]. intros exec2. apply keeps_ret.
Qed.

Lemma keeps_filler_pass env test_size distributions current_nodes exec total :
  keeps_store
    (TestsetGenerator.filler_pass env test_size distributions current_nodes exec total).
Proof.
  unfold TestsetGenerator.filler_pass.
  destruct (Z.of_nat total <=? test_size); [|apply keeps_ret].
  apply keeps_bind; [apply keeps_choices|]. intros ps.
  apply keeps_for_each. intros evolution [exec1 total1].
  apply keeps_bind; [apply keeps_submit_evolve|]. intros exec2. apply keeps_ret.
Qed.

Lemma keeps_results env exec : keeps_store (Executor.results env exec).
Proof.
  unfold Executor.results. apply keeps_bind; [apply keeps_emit|].
  intros _. apply keeps_lift.
Qed.

(** ** What [generate] does to the strategy objects *)

Lemma store_bind_Ok {A B} (m : M A) (k : A -> M B) st a st1 t1 :
  m st = (Ok a, st1, t1) -> store_of ((m ≫= k) st) = store_of (k a st1).
Proof. intros H. rewrite (bind_Ok _ _ _ _ _ _ H). reflexivity. Qed.

Lemma init_all_lookup self ks : forall st r e,
  st !! r = Some e ->
  init_all self ks st !! r =
  Some (if bool_decide (r ∈ ks) then TestsetGenerator.init_evolution_fields self e else e).
Proof.
  induction ks as [|a ks IH]; intros st r e He; cbn [init_all foldl].
  - exact He.
  - fold (init_all self ks (alter (TestsetGenerator.init_evolution_fields self) a st)).
    destruct (decide (a = r)) as [->|Hne].
    + rewrite (IH _ r (TestsetGenerator.init_evolution_fields self e))
        by (rewrite lookup_alter_eq, He; reflexivity).
      rewrite init_evolution_fields_idempotent.
      rewrite (bool_decide_eq_true_2 (r ∈ r :: ks)) by (left).
      destruct (bool_decide (r ∈ ks)); reflexivity.
    + rewrite (IH _ r e) by (rewrite lookup_alter_ne by assumption; exact He).
      f_equal. assert (Hiff : r ∈ ks <-> r ∈ a :: ks).
      { rewrite elem_of_cons. split; [auto|]. intros [->|H]; [congruence|exact H]. }
      rewrite (bool_decide_ext _ _ Hiff). reflexivity.
Qed.



Lemma generate_store env self test_size distributions with_debugging_logs
    is_async raise_exceptions run_config st :
  let d := default DEFAULT_DISTRIBUTION distributions in
  store_of (TestsetGenerator.generate env self test_size distributions
              with_debugging_logs is_async raise_exceptions run_config st) =
  if check_if_sum_is_close (TestsetGenerator.values d) f1_0 3
  then init_all self (TestsetGenerator.keys d) st else st.
Proof.
  intros d. unfold TestsetGenerator.generate. fold d. cbv zeta.
  destruct (check_if_sum_is_close _ _ _); cbn [negb]; [|reflexivity].
  erewrite store_bind_Ok; [|reflexivity].
  erewrite store_bind_Ok; [|apply init_loop_ok].
  apply keeps_bind.
  { destruct (default false with_debugging_logs); [|apply keeps_ret].
    repeat (apply keeps_bind; [apply keeps_emit|intros _]). apply keeps_emit. }
  intros _. apply keeps_bind; [apply keeps_emit|]. intros _.
  apply keeps_bind; [apply keeps_lift|]. intros ns.
  apply keeps_bind; [apply keeps_partition_pass|]. intros [exec1 total1].
  apply keeps_bind; [apply keeps_filler_pass|]. intros [exec2 total2].
  apply keeps_bind; [apply keeps_results|]. intros rows.
  apply keeps_bind.
  { apply keeps_for_each. intros r names.
    apply keeps_bind; [apply keeps_get|]. intros e. apply keeps_ret. }
  intros names. apply keeps_bind; [apply keeps_emit|]. intros _. apply keeps_ret.
Qed.





(** ** More on [save] and [adapt] *)

Lemma first_failing {A} (f : A -> bool) (l : list A) :
  existsb f l = true ->
  exists pre x post, l = pre ++ x :: post /\ Forall (fun y => f y = false) pre /\ f x = true.
Proof.
  induction l as [|a l IH]; simpl; [discriminate|].
  destruct (f a) eqn:Ha; simpl.
  - intros _. exists [], a, l. repeat split; [constructor|exact Ha].
  - intros H. destruct (IH H) as (pre & x & post & -> & Hpre & Hx).
    exists (a :: pre), x, post. repeat split; [constructor; assumption|exact Hx].
Qed.

Lemma none_failing {A} (f : A -> bool) (l : list A) :
  existsb f l = false -> Forall (fun y => f y = false) l.
Proof.
  induction l as [|a l IH]; simpl; [constructor|].
  destruct (f a) eqn:Ha; simpl; [discriminate|]. intros H. constructor; auto.
Qed.

Lemma save_loop_ok cache_dir st rs :
  Forall (fun r => EvolutionMethods.filters_unset (st !!! r) = false) rs ->
  for_each rs
    (fun evolution _ =>
       e ← get_evolution evolution;
       TestsetGenerator.assert (bool_decide (is_Some (Evolution.node_filter e)))
         "NodeFilter is not set";;
       TestsetGenerator.assert (bool_decide (is_Some (Evolution.question_filter e)))
         "QuestionFilter is not set";;
       (if Evolution.is_ComplexEvolution e then
          TestsetGenerator.assert (bool_decide (is_Some (Evolution.evolution_filter e)))
            "EvolutionFilter is not set"
        else mret tt);;
       EvolutionMethods.save evolution cache_dir)
    tt st =
  (Ok tt, st, (fun r => evolution_save r cache_dir) <$> rs).
Proof.
  intros Hrs. induction Hrs as [|a rs Ha _ IH]; cbn [for_each]; [reflexivity|].
  erewrite bind_run; [|apply save_one_ok, Ha|apply IH]. reflexivity.
Qed.

Lemma save_ok self cache_dir st rs :
  docstore_ready self ->
  Forall (fun r => EvolutionMethods.filters_unset (st !!! r) = false) rs ->
  TestsetGenerator.save self rs cache_dir st =
  (Ok tt, st, extractor_save cache_dir :: ((fun r => evolution_save r cache_dir) <$> rs)).
Proof.
  intros Hready Hrs. destruct (asserts_pass self st Hready) as [H1 H2].
  unfold TestsetGenerator.save. etransitivity.
  { eapply bind_run; [exact H1|]. eapply bind_run; [exact H2|].
    eapply bind_run; [reflexivity|]. apply save_loop_ok, Hrs. }
  reflexivity.
Qed.

Lemma docstore_not_ready self :
  ~ docstore_ready self ->
  is_InMemoryDocumentStore (TestsetGenerator.docstore self) = false \/
  (is_InMemoryDocumentStore (TestsetGenerator.docstore self) = true /\
   extractor (TestsetGenerator.docstore self) = None).
Proof.
  unfold docstore_ready. intros H.
  destruct (is_InMemoryDocumentStore (TestsetGenerator.docstore self)); [|left; reflexivity].
  right. split; [reflexivity|].
  destruct (extractor (TestsetGenerator.docstore self)) as [x|]; [|reflexivity].
  exfalso. apply H. split; [reflexivity|]. eexists. reflexivity.
Qed.

(** The message of the docstore assertion that fails. *)
Lemma docstore_assertion_fails {A} self (k : M A) st :
  ~ docstore_ready self ->
  exists msg,
    (TestsetGenerator.assert (is_InMemoryDocumentStore (TestsetGenerator.docstore self))
       "Must be an instance of in-memory docstore";;
     TestsetGenerator.assert
       (bool_decide (is_Some (extractor (TestsetGenerator.docstore self))))
       "Extractor is not set";;
     k) st = (Raise (AssertionError [text msg]), st, []) /\
    (msg = "Must be an instance of in-memory docstore" \/ msg = "Extractor is not set").
Proof.
  intros H. destruct (docstore_not_ready self H) as [Hmem|[Hmem Hext]].
  - eexists. split; [|left; reflexivity].
    erewrite bind_Raise; [reflexivity|]. apply assert_false, Hmem.
  - eexists. split; [|right; reflexivity].
    erewrite bind_run; [|apply assert_true, Hmem|].
    2:{ erewrite bind_Raise; [reflexivity|]. apply assert_false. rewrite Hext. reflexivity. }
    reflexivity.
Qed.



Lemma keeps_assert b msg : keeps_store (TestsetGenerator.assert b msg).
Proof. unfold TestsetGenerator.assert. destruct b; [apply keeps_ret|apply keeps_raise]. Qed.

Lemma keeps_save self rs cache_dir : keeps_store (TestsetGenerator.save self rs cache_dir).
Proof.
  unfold TestsetGenerator.save.
  apply keeps_bind; [apply keeps_assert|]. intros _.
  apply keeps_bind; [apply keeps_assert|]. intros _.
  apply keeps_bind; [apply keeps_emit|]. intros _.
  apply keeps_for_each. intros r [].
  apply keeps_bind; [apply keeps_get|]. intros e.
  apply keeps_bind; [apply keeps_assert|]. intros _.
  apply keeps_bind; [apply keeps_assert|]. intros _.
  apply keeps_bind.
  { destruct (Evolution.is_ComplexEvolution e); [apply keeps_assert|apply keeps_ret]. }
  intros _. unfold EvolutionMethods.save.
  apply keeps_bind; [apply keeps_get|]. intros e'.
  destruct (EvolutionMethods.filters_unset e'); [apply keeps_raise|apply keeps_emit].
Qed.

(** X4.  [save] returns exactly when the docstore is in memory with an
    extractor and every strategy of the list has its node filter, its
    question filter and, for a composite kind, its evolution filter.  It
    then has called [save] on the extractor and on each strategy, in list
    order, once per occurrence.  It never changes a strategy object,
    whether it returns or raises. *)
Theorem save_succeeds_iff self evolutions cache_dir st :
  (result_of (TestsetGenerator.save self evolutions cache_dir st) = Ok tt <->
   docstore_ready self /\
   Forall (fun r => EvolutionMethods.filters_unset (st !!! r) = false) evolutions) /\
  (result_of (TestsetGenerator.save self evolutions cache_dir st) = Ok tt ->
   trace_of (TestsetGenerator.save self evolutions cache_dir st) =
   extractor_save cache_dir :: ((fun r => evolution_save r cache_dir) <$> evolutions)) /\
  store_of (TestsetGenerator.save self evolutions cache_dir st) = st.
Proof.
  assert (Hiff : result_of (TestsetGenerator.save self evolutions cache_dir st) = Ok tt ->
                 docstore_ready self /\
                 Forall (fun r => EvolutionMethods.filters_unset (st !!! r) = false)
                   evolutions).
  { intros Hok.
    assert (Hready : docstore_ready self).
    { assert (Hnot : ~ docstore_ready self -> False).
      { intros Hn. unfold TestsetGenerator.save, result_of in Hok.
        destruct (docstore_assertion_fails self
                    (emit (extractor_save cache_dir);;
                     for_each evolutions
                       (fun evolution _ =>
                          e ← get_evolution evolution;
                          TestsetGenerator.assert
                            (bool_decide (is_Some (Evolution.node_filter e)))
                            "NodeFilter is not set";;
                          TestsetGenerator.assert
                            (bool_decide (is_Some (Evolution.question_filter e)))
                            "QuestionFilter is not set";;
                          (if Evolution.is_ComplexEvolution e then
                             TestsetGenerator.assert
                               (bool_decide (is_Some (Evolution.evolution_filter e)))
                               "EvolutionFilter is not set"
                           else mret tt);;
                          EvolutionMethods.save evolution cache_dir)
                       tt) st Hn) as (msg & Hs & _).
        rewrite Hs in Hok. discriminate. }
      unfold docstore_ready in *.
      destruct (is_InMemoryDocumentStore (TestsetGenerator.docstore self)).
      - destruct (extractor (TestsetGenerator.docstore self)) as [x|].
        + split; [reflexivity|eexists; reflexivity].
        + exfalso. apply Hnot. intros [_ [y Hy]]. discriminate.
      - exfalso. apply Hnot. intros [Hm _]. discriminate. }
    split; [exact Hready|].
    destruct (existsb (fun r => EvolutionMethods.filters_unset (st !!! r)) evolutions)
      eqn:Hex; [|apply none_failing, Hex].
    apply first_failing in Hex as (pre & r & post & -> & Hpre & Hr).
    unfold result_of in Hok.
    rewrite (save_fails self cache_dir st r post pre Hready Hpre Hr) in Hok. discriminate. }
  split; [split; [exact Hiff|]|split].
  - intros [Hready Hall]. unfold result_of. rewrite (save_ok _ _ _ _ Hready Hall). reflexivity.
  - intros Hok. destruct (Hiff Hok) as [Hready Hall].
    unfold trace_of. rewrite (save_ok _ _ _ _ Hready Hall). reflexivity.
  - apply keeps_save.
Qed.

Lemma save_succeeds_iff_witness :
  trace_of (TestsetGenerator.save example_generator [simple; simple] None half_ready_store) =
  [extractor_save None; evolution_save simple None; evolution_save simple None].
Proof.
  apply (proj1 (proj2 (save_succeeds_iff example_generator [simple; simple] None
                         half_ready_store))).
  reflexivity.
Defined.


Lemma ready_after_init_all self ks st :
  Forall (fun r => verdict st r false) ks ->
  Forall (fun r => EvolutionMethods.filters_unset (init_all self ks st !!! r) = false) ks.
Proof.
  intros H. rewrite List.Forall_forall in *. intros r Hr.
  destruct (H r Hr) as (e & He & Hb).
  pose proof (init_all_lookup self ks st r e He) as Hl.
  apply list_elem_of_In in Hr. rewrite (bool_decide_eq_true_2 _ Hr) in Hl.
  rewrite (lookup_total_correct _ _ _ Hl), filters_unset_after_init. exact Hb.
Qed.

(** X5.  After any validated call of [generate], failed or not, [save] on
    the strategies of the mapping succeeds, provided the docstore is in
    memory with an extractor and each strategy of the mapping was either
    without a generation model or already had its filters: [generate] has
    bound what [save] asserts. *)
Theorem save_after_generate env self test_size distributions with_debugging_logs
    is_async raise_exceptions run_config cache_dir st :
  let d := default DEFAULT_DISTRIBUTION distributions in
  let st' := store_of (TestsetGenerator.generate env self test_size distributions
                         with_debugging_logs is_async raise_exceptions run_config st) in
  check_if_sum_is_close (TestsetGenerator.values d) f1_0 3 = true ->
  docstore_ready self ->
  Forall (fun r => verdict st r false) (TestsetGenerator.keys d) ->
  TestsetGenerator.save self (TestsetGenerator.keys d) cache_dir st' =
  (Ok tt, st',
   extractor_save cache_dir ::
     ((fun r => evolution_save r cache_dir) <$> TestsetGenerator.keys d)).
Proof.
  intros d st' Hvalid Hready Hkeys. unfold st'. rewrite generate_store. fold d.
  rewrite Hvalid. apply save_ok; [exact Hready|]. apply ready_after_init_all, Hkeys.
Qed.

Lemma save_after_generate_witness :
  let st' := store_of (TestsetGenerator.generate empty_docstore_env example_generator 10
                         None None None None None example_store) in
  TestsetGenerator.save example_generator (TestsetGenerator.keys DEFAULT_DISTRIBUTION)
    None st' =
  (Ok tt, st',
   extractor_save None ::
     ((fun r => evolution_save r None) <$> TestsetGenerator.keys DEFAULT_DISTRIBUTION)).
Proof.
  apply (save_after_generate empty_docstore_env example_generator 10 None None None None
           None None example_store).
  - vm_compute. reflexivity.
  - split; [reflexivity|eexists; reflexivity].
  - repeat constructor; eexists; split; reflexivity.
Defined.



(** X7.  [init_evolution] only fills gaps.  It never replaces a
    collaborator that is already set, never changes the class or kind of
    the strategy, never gives an evolution filter to a strategy that is not
    composite, never touches another strategy, calls no collaborator and
    never fails; on a reference that is not in the store it does nothing. *)
Theorem init_evolution_fills_gaps_only self r st :
  TestsetGenerator.init_evolution self r st =
    (Ok tt, store_of (TestsetGenerator.init_evolution self r st), []) /\
  (forall r', r' <> r ->
     store_of (TestsetGenerator.init_evolution self r st) !! r' = st !! r') /\
  (st !! r = None -> store_of (TestsetGenerator.init_evolution self r st) = st) /\
  (forall e, st !! r = Some e ->
     exists e', store_of (TestsetGenerator.init_evolution self r st) !! r = Some e' /\
       Evolution.class_name e' = Evolution.class_name e /\
       Evolution.is_ComplexEvolution e' = Evolution.is_ComplexEvolution e /\
       (forall x, Evolution.generator_llm e = Some x -> Evolution.generator_llm e' = Some x) /\
       (forall x, Evolution.docstore e = Some x -> Evolution.docstore e' = Some x) /\
       (forall x, Evolution.question_filter e = Some x ->
                  Evolution.question_filter e' = Some x) /\
       (forall x, Evolution.node_filter e = Some x -> Evolution.node_filter e' = Some x) /\
       (forall x, Evolution.evolution_filter e = Some x ->
                  Evolution.evolution_filter e' = Some x) /\
       (Evolution.is_ComplexEvolution e = false ->
        Evolution.evolution_filter e' = Evolution.evolution_filter e)).
Proof.
  unfold TestsetGenerator.init_evolution, update_evolution, store_of. cbn [fst snd].
  split; [reflexivity|]. split; [|split].
  - intros r' Hne. apply lookup_alter_ne. congruence.
  - intros Hnone. apply alter_id'. exact Hnone.
  - intros e He. exists (TestsetGenerator.init_evolution_fields self e).
    rewrite lookup_alter_eq, He. split; [reflexivity|].
    unfold TestsetGenerator.init_evolution_fields.
    destruct (Evolution.generator_llm e) as [llm|] eqn:Hllm.
    + rewrite Hllm. repeat split; auto.
    + cbn. repeat split; try discriminate.
      * intros x Hx. rewrite Hx. reflexivity.
      * intros x Hx. rewrite Hx. reflexivity.
      * intros x Hx. rewrite Hx. reflexivity.
      * intros x Hx. rewrite Hx. destruct (Evolution.is_ComplexEvolution e); reflexivity.
      * intros Hc. rewrite Hc. reflexivity.
Qed.

Lemma init_evolution_fills_gaps_only_witness :
  store_of (TestsetGenerator.init_evolution example_generator simple example_store)
    !! reasoning = example_store !! reasoning.
Proof.
  apply (proj1 (proj2 (init_evolution_fills_gaps_only example_generator simple
                         example_store))).
  discriminate.
Defined.

(** ** The setup phase of [generate] *)

Lemma debug_stage (logs : bool) st :
  (if logs then
     emit (patch_logger "ragas.testset.evolutions" TestsetGenerator.DEBUG);;
     emit (patch_logger "ragas.testset.extractor" TestsetGenerator.DEBUG);;
     emit (patch_logger "ragas.testset.filters" TestsetGenerator.DEBUG);;
     emit (patch_logger "ragas.testset.docstore" TestsetGenerator.DEBUG);;
     emit (patch_logger "ragas.llms.prompt" TestsetGenerator.DEBUG)
   else mret tt) st = (Ok tt, st, debug_trace logs).
Proof. destruct logs; reflexivity. Qed.

(** A validated call, up to the seed draw: what has been recorded so far,
    and that the rest runs from the initialised store. *)
Lemma generate_setup env self test_size distributions
    is_async raise_exceptions run_config st :
  let d := default DEFAULT_DISTRIBUTION distributions in
  let rc := resolve_run_config run_config in
  check_if_sum_is_close (TestsetGenerator.values d) f1_0 3 = true ->
  exists rest : M TestDataset,
    (forall logs' : option bool,
       TestsetGenerator.generate env self test_size distributions logs'
         is_async raise_exceptions run_config st =
       (result_of (rest (init_all self (TestsetGenerator.keys d) st)),
        store_of (rest (init_all self (TestsetGenerator.keys d) st)),
        docstore_set_run_config rc ::
          ((fun r => evolution_init r (Some (default true is_async)) (Some rc)) <$>
             TestsetGenerator.keys d) ++
          debug_trace (default false logs') ++
          docstore_get_random_nodes test_size ::
          trace_of (rest (init_all self (TestsetGenerator.keys d) st)))) /\
    (forall st0 e, get_random_nodes env test_size = Raise e -> rest st0 = (Raise e, st0, [])).
Proof.
  intros d rc Hvalid. eexists. split.
  - intros logs'. unfold TestsetGenerator.generate. fold d. cbv zeta.
    rewrite Hvalid. cbn [negb]. fold rc.
    erewrite bind_Ok; [|reflexivity].
    erewrite bind_Ok; [|apply init_loop_ok].
    erewrite bind_Ok; [|apply debug_stage].
    erewrite bind_Ok; [|reflexivity].
    cbn [app]. unfold result_of, store_of, trace_of. reflexivity.
  - intros st0 e He. cbv beta. erewrite bind_Raise; [reflexivity|].
    unfold lift. rewrite He. reflexivity.
Qed.

(** X8.  Every validated call of [generate] starts the same way: it sets
    the run config on the docstore (the caller's, or 15 retries and a wait
    of 90 when none is passed), then calls [init] on each strategy in
    mapping order with [is_async] (true when not passed) and that same run
    config, then patches the loggers if asked, and only then draws
    [test_size] nodes. *)
Theorem generate_setup_order env self test_size distributions with_debugging_logs
    is_async raise_exceptions run_config st :
  let d := default DEFAULT_DISTRIBUTION distributions in
  let rc := default {| max_retries := 15; max_wait := 90 |} run_config in
  check_if_sum_is_close (TestsetGenerator.values d) f1_0 3 = true ->
  exists rest,
    trace_of (TestsetGenerator.generate env self test_size distributions
                with_debugging_logs is_async raise_exceptions run_config st) =
    docstore_set_run_config rc ::
      ((fun r => evolution_init r (Some (default true is_async)) (Some rc)) <$>
         TestsetGenerator.keys d) ++
      debug_trace (default false with_debugging_logs) ++
      docstore_get_random_nodes test_size :: rest.
Proof.
  intros d rc Hvalid.
  destruct (generate_setup env self test_size distributions
              is_async raise_exceptions run_config st Hvalid) as (rest & Hrun & _).
  eexists. rewrite (Hrun with_debugging_logs). reflexivity.
Qed.

Lemma generate_setup_order_witness :
  exists rest,
    trace_of (TestsetGenerator.generate example_env example_generator 10 None
                None None None None example_store) =
    docstore_set_run_config {| max_retries := 15; max_wait := 90 |} ::
      [evolution_init simple (Some true) (Some {| max_retries := 15; max_wait := 90 |});
       evolution_init reasoning (Some true) (Some {| max_retries := 15; max_wait := 90 |});
       evolution_init multi_context (Some true)
         (Some {| max_retries := 15; max_wait := 90 |})] ++
      [] ++ docstore_get_random_nodes 10 :: rest.
Proof.
  apply (generate_setup_order example_env example_generator 10 None None None None None
           example_store).
  vm_compute. reflexivity.
Defined.

(** X9.  The debugging flag is observability only: with or without it
    [generate] returns or raises the same thing and leaves the same
    strategy objects, and in a validated call the recorded calls differ by
    exactly the five [patch_logger] calls, made after the strategies are
    initialised and before the nodes are drawn. *)
Theorem debugging_logs_change_nothing_else env self test_size distributions
    is_async raise_exceptions run_config st :
  let d := default DEFAULT_DISTRIBUTION distributions in
  let run := fun logs => TestsetGenerator.generate env self test_size distributions
                           logs is_async raise_exceptions run_config st in
  (forall logs logs', result_of (run logs) = result_of (run logs') /\
                      store_of (run logs) = store_of (run logs')) /\
  (check_if_sum_is_close (TestsetGenerator.values d) f1_0 3 = true ->
   exists pre post,
     trace_of (run (Some true)) = pre ++ debug_trace true ++ post /\
     trace_of (run (Some false)) = pre ++ post /\
     trace_of (run None) = pre ++ post).
Proof.
  intros d run.
  destruct (check_if_sum_is_close (TestsetGenerator.values d) f1_0 3) eqn:Hvalid.
  - destruct (generate_setup env self test_size distributions
                is_async raise_exceptions run_config st Hvalid) as (rest & Hrun & _).
    split.
    + intros logs logs'. unfold run. rewrite (Hrun logs), (Hrun logs'). split; reflexivity.
    + intros _.
      exists (docstore_set_run_config (resolve_run_config run_config) ::
                ((fun r => evolution_init r (Some (default true is_async))
                             (Some (resolve_run_config run_config))) <$>
                   TestsetGenerator.keys d)),
             (docstore_get_random_nodes test_size ::
                trace_of (rest (init_all self (TestsetGenerator.keys d) st))).
      unfold run. rewrite (Hrun (Some true)), (Hrun (Some false)), (Hrun None).
      repeat split; reflexivity.
  - split; [|discriminate]. intros logs logs'. unfold run.
    rewrite !generate_rejects by exact Hvalid. split; reflexivity.
Qed.

Lemma debugging_logs_change_nothing_else_witness :
  exists pre post,
    trace_of (TestsetGenerator.generate example_env example_generator 10 None
                (Some true) None None None example_store) =
      pre ++ debug_trace true ++ post /\
    trace_of (TestsetGenerator.generate example_env example_generator 10 None
                (Some false) None None None example_store) = pre ++ post /\
    trace_of (TestsetGenerator.generate example_env example_generator 10 None
                None None None None example_store) = pre ++ post.
Proof.
  apply (proj2 (debugging_logs_change_nothing_else example_env example_generator 10 None
                  None None None example_store)).
  vm_compute. reflexivity.
Defined.

(** X10.  When the docstore cannot supply the nodes, [generate] raises the
    docstore's error and submits no job, but the call is not without
    effect: the docstore's run config has been set, every strategy of the
    mapping has been bound and initialised, and the loggers patched if
    asked. *)
Theorem generate_without_nodes env self test_size distributions with_debugging_logs
    is_async raise_exceptions run_config st e :
  let d := default DEFAULT_DISTRIBUTION distributions in
  let rc := resolve_run_config run_config in
  check_if_sum_is_close (TestsetGenerator.values d) f1_0 3 = true ->
  get_random_nodes env test_size = Raise e ->
  TestsetGenerator.generate env self test_size distributions with_debugging_logs
    is_async raise_exceptions run_config st =
  (Raise e, init_all self (TestsetGenerator.keys d) st,
   docstore_set_run_config rc ::
     ((fun r => evolution_init r (Some (default true is_async)) (Some rc)) <$>
        TestsetGenerator.keys d) ++
     debug_trace (default false with_debugging_logs) ++
     [docstore_get_random_nodes test_size]).
Proof.
  intros d rc Hvalid He.
  destruct (generate_setup env self test_size distributions
              is_async raise_exceptions run_config st Hvalid) as (rest & Hrun & Hfail).
  rewrite (Hrun with_debugging_logs), (Hfail _ e He). reflexivity.
Qed.

Lemma generate_without_nodes_witness :
  TestsetGenerator.generate empty_docstore_env example_generator 10 None None None None None
    example_store =
  (Raise (ValueError [text "not enough nodes"]),
   init_all example_generator (TestsetGenerator.keys DEFAULT_DISTRIBUTION) example_store,
   docstore_set_run_config (resolve_run_config None) ::
     ((fun r => evolution_init r (Some true) (Some (resolve_run_config None))) <$>
        TestsetGenerator.keys DEFAULT_DISTRIBUTION) ++
     debug_trace false ++ [docstore_get_random_nodes 10]).
Proof.
  apply (generate_without_nodes empty_docstore_env example_generator 10 None None None None
           None example_store).
  - vm_compute. reflexivity.
  - reflexivity.
Defined.

(** ** Telemetry *)

Lemma trace_bind {A B} (m : M A) (k : A -> M B) st :
  trace_of ((m ≫= k) st) =
  trace_of (m st) ++
  match result_of (m st) with
  | Ok a => trace_of (k a (store_of (m st)))
  | Raise _ => []
  end.
Proof.
  rewrite run_bind. destruct (result_of (m st)); unfold trace_of at 1; cbn [snd].
  - reflexivity.
  - rewrite app_nil_r. reflexivity.
Qed.

Lemma tracked_app t1 t2 : tracked (t1 ++ t2) = tracked t1 ++ tracked t2.
Proof. unfold tracked. apply omap_app. Qed.

Lemma untracked_ret {A} (a : A) : untracked (mret a : M A).
Proof. intros st. reflexivity. Qed.

Lemma untracked_raise {A} e : untracked (raise e : M A).
Proof. intros st. reflexivity. Qed.

Lemma untracked_lift {A} (o : outcome A) : untracked (lift o).
Proof. intros st. reflexivity. Qed.

Lemma untracked_get r : untracked (get_evolution r).
Proof. intros st. reflexivity. Qed.

Lemma untracked_update f r : untracked (update_evolution f r).
Proof. intros st. reflexivity. Qed.

Lemma untracked_emit ev :
  match ev with track _ => False | _ => True end -> untracked (emit ev).
Proof. intros H st. destruct ev; try reflexivity. contradiction. Qed.

Lemma untracked_bind {A B} (m : M A) (k : A -> M B) :
  untracked m -> (forall a, untracked (k a)) -> untracked (m ≫= k).
Proof.
  intros Hm Hk st. rewrite trace_bind, tracked_app, Hm.
  destruct (result_of (m st)); [apply Hk|reflexivity].
Qed.

Lemma untracked_for_each {A S} (body : A -> S -> M S) (xs : list A) :
  (forall x s, untracked (body x s)) -> forall s, untracked (for_each xs body s).
Proof.
  intros Hbody. induction xs as [|x xs IH]; intros s; cbn [for_each].
  - apply untracked_ret.
  - apply untracked_bind; [apply Hbody|exact IH].
Qed.

Lemma untracked_index {A} (xs : list A) i : untracked (index xs i).
Proof. unfold index. destruct (xs !! i); [apply untracked_ret|apply untracked_raise]. Qed.

Lemma untracked_submit_evolve current_nodes evolution i exec :
  untracked (TestsetGenerator.submit_evolve current_nodes evolution i exec).
Proof.
  unfold TestsetGenerator.submit_evolve.
  apply untracked_bind; [apply untracked_index|]. intros cn.
  apply untracked_bind; [apply untracked_get|]. intros e.
  unfold Executor.submit. apply untracked_bind; [apply untracked_emit; exact I|].
  intros _. apply untracked_ret.
Qed.

Lemma untracked_partition_pass test_size distributions current_nodes exec :
  untracked (TestsetGenerator.partition_pass test_size distributions current_nodes exec).
Proof.
  unfold TestsetGenerator.partition_pass. apply untracked_for_each.
  intros [evolution probability] [exec0 total].
  apply untracked_bind; [apply untracked_lift|]. intros x.
  apply untracked_bind; [apply untracked_lift|]. intros n.
  apply untracked_for_each. intros i [exec1 total1].
  apply untracked_bind; [apply untracked_submit_evolve|]. intros exec2. apply untracked_ret.
Qed.

Lemma untracked_filler_pass env test_size distributions current_nodes exec total :
  untracked
    (TestsetGenerator.filler_pass env test_size distributions current_nodes exec total).
Proof.
  unfold TestsetGenerator.filler_pass.
  destruct (Z.of_nat total <=? test_size); [|apply untracked_ret].
  apply untracked_bind.
  { unfold choices. apply untracked_for_each. intros j picked.
    apply untracked_bind; [apply untracked_index|]. intros x. apply untracked_ret. }
  intros ps. apply untracked_for_each. intros evolution [exec1 total1].
  apply untracked_bind; [apply untracked_submit_evolve|]. intros exec2. apply untracked_ret.
Qed.

Lemma reports_raise e : reports (raise e).
Proof. intros st. reflexivity. Qed.

Lemma reports_bind {A} (m : M A) (k : A -> M TestDataset) :
  untracked m -> (forall a, reports (k a)) -> reports (m ≫= k).
Proof.
  intros Hm Hk st. rewrite trace_bind, tracked_app, Hm. rewrite run_bind.
  destruct (result_of (m st)) as [a|e]; unfold result_of at 1; cbn [fst snd app].
  - specialize (Hk a (store_of (m st))).
    destruct (result_of (k a (store_of (m st)))) as [ds|e]; [|exact Hk].
    destruct Hk as (ev & Ht & Hlast & Hn). exists ev. split; [exact Ht|].
    split; [|exact Hn]. rewrite last_app, Hlast. reflexivity.
  - reflexivity.
Qed.

Lemma reports_track ev ds :
  num_rows ev = length (test_data ds) -> reports (emit (track ev);; mret ds).
Proof. intros H st. exists ev. repeat split. exact H. Qed.

(** X11.  [generate] reports to telemetry exactly when it returns a
    dataset: then one [track] call is made, it is the last call of the run,
    and its [num_rows] is the number of rows of the returned dataset.  A
    call that raises, at validation or anywhere later, reports nothing. *)
Theorem generate_reports_once env self test_size distributions with_debugging_logs
    is_async raise_exceptions run_config st :
  let r := TestsetGenerator.generate env self test_size distributions
             with_debugging_logs is_async raise_exceptions run_config st in
  (forall ds, result_of r = Ok ds ->
     exists ev, tracked (trace_of r) = [ev] /\ last (trace_of r) = Some (track ev) /\
                num_rows ev = length (test_data ds)) /\
  (forall e, result_of r = Raise e -> tracked (trace_of r) = []).
Proof.
  intros r.
  assert (H : reports (TestsetGenerator.generate env self test_size distributions
                         with_debugging_logs is_async raise_exceptions run_config)).
  { unfold TestsetGenerator.generate. cbv zeta.
    destruct (check_if_sum_is_close _ _ _); cbn [negb]; [|apply reports_raise].
    apply reports_bind; [apply untracked_emit; exact I|]. intros _.
    apply reports_bind.
    { apply untracked_for_each. intros evolution [].
      apply untracked_bind; [apply untracked_update|]. intros _.
      apply untracked_emit. exact I. }
    intros _. apply reports_bind.
    { destruct (default false with_debugging_logs); [|apply untracked_ret].
      repeat (apply untracked_bind; [apply untracked_emit; exact I|intros _]).
      apply untracked_emit. exact I. }
    intros _. apply reports_bind; [apply untracked_emit; exact I|]. intros _.
    apply reports_bind; [apply untracked_lift|]. intros ns.
    apply reports_bind; [apply untracked_partition_pass|]. intros [exec1 total1].
    apply reports_bind; [apply untracked_filler_pass|]. intros [exec2 total2].
    apply reports_bind.
    { unfold Executor.results. apply untracked_bind; [apply untracked_emit; exact I|].
      intros _. apply untracked_lift. }
    intros rows. apply reports_bind.
    { apply untracked_for_each. intros evolution names.
      apply untracked_bind; [apply untracked_get|]. intros e. apply untracked_ret. }
    intros names. apply reports_track. reflexivity. }
  specialize (H st). fold r in H. split.
  - intros ds Hds. rewrite Hds in H. exact H.
  - intros e He. rewrite He in H. exact H.
Qed.

Lemma generate_reports_once_witness :
  let r := TestsetGenerator.generate example_env example_generator 3 (Some halves)
             None None None None example_store in
  exists ev, tracked (trace_of r) = [ev] /\ last (trace_of r) = Some (track ev) /\
             num_rows ev = 4%nat.
Proof.
  apply (proj1 (generate_reports_once example_env example_generator 3 (Some halves)
                  None None None None example_store)
           {| test_data :=
                [Row {| question := "SimpleEvolution-0"; answer := ""; contexts := [];
                        metadata := [] |};
                 Row {| question := "SimpleEvolution-1"; answer := ""; contexts := [];
                        metadata := [] |};
                 Row {| question := "ReasoningEvolution-0"; answer := ""; contexts := [];
                        metadata := [] |};
                 Row {| question := "ReasoningEvolution-1"; answer := ""; contexts := [];
                        metadata := [] |}] |}).
  vm_compute. reflexivity.
Defined.

(** ** How many jobs, on which seeds *)

Lemma job_count_zero p : is_finite p = true -> job_count p 0 = Ok 0.
Proof. destruct p as [s|s| |s m e]; try discriminate; reflexivity. Qed.

Lemma counts_of_zero d :
  Forall (fun p => is_finite p = true) (TestsetGenerator.values d) ->
  counts_of 0 d ((fun _ => 0) <$> d).
Proof.
  unfold counts_of. induction d as [|[r p] d IH]; intros H; simpl; [constructor|].
  apply Forall_cons in H as [Hp H]. constructor; [apply job_count_zero, Hp|apply IH, H].
Qed.

Lemma partition_plan_zero (d : Distributions) :
  partition_plan d ((fun _ => 0) <$> d) = [].
Proof. induction d as [|x d IH]; [reflexivity|]. unfold partition_plan in *. simpl. exact IH. Qed.

Lemma total_count_zero (d : Distributions) : total_count ((fun _ => 0) <$> d) = 0%nat.
Proof. induction d as [|x d IH]; [reflexivity|]. simpl. exact IH. Qed.

(** X12.  With [test_size = 0], a validated mapping whose weights are
    numbers and a docstore that hands back no node, [generate] submits no
    job and returns an empty dataset. *)
Theorem generate_nothing env self distributions with_debugging_logs is_async
    raise_exceptions run_config st :
  let d := default DEFAULT_DISTRIBUTION distributions in
  let r := TestsetGenerator.generate env self 0 distributions with_debugging_logs
             is_async raise_exceptions run_config st in
  check_if_sum_is_close (TestsetGenerator.values d) f1_0 3 = true ->
  Forall (fun p => is_finite p = true) (TestsetGenerator.values d) ->
  get_random_nodes env 0 = Ok [] ->
  result_of r = Ok {| test_data := [] |} /\ submitted (trace_of r) = [].
Proof.
  intros d r Hvalid Hfin Hnodes.
  assert (Hcounts : counts_of 0 d ((fun _ => 0) <$> d)) by (apply counts_of_zero, Hfin).
  assert (Hbound : Forall (fun n => n <= 0) ((fun _ : evolution_ref * float => 0) <$> d)).
  { apply List.Forall_forall. intros n Hn.
    apply list_elem_of_In, list_elem_of_fmap in Hn as (x & -> & _). lia. }
  assert (Hjobs : generate_jobs env self 0 d ((fun _ => 0) <$> d) [] st = []).
  { unfold generate_jobs, generate_plan. rewrite partition_plan_zero, total_count_zero.
    reflexivity. }
  split.
  - unfold r, result_of.
    rewrite (generate_run env self 0 distributions with_debugging_logs is_async
               raise_exceptions run_config _ [] st Hvalid Hnodes eq_refl Hcounts Hbound).
    fold d. rewrite Hjobs. reflexivity.
  - unfold r.
    rewrite (generate_submits env self 0 distributions with_debugging_logs is_async
               raise_exceptions run_config _ [] st Hvalid Hnodes eq_refl Hcounts Hbound).
    exact Hjobs.
Qed.

Lemma generate_nothing_witness :
  result_of (TestsetGenerator.generate example_env example_generator 0 None None None
               None None example_store) = Ok {| test_data := [] |}.
Proof.
  apply (generate_nothing example_env example_generator None None None None None
           example_store).
  - vm_compute. reflexivity.
  - repeat constructor.
  - reflexivity.
Defined.

Lemma generate_jobs_length env self test_size d counts ns st :
  length d = length counts ->
  length (generate_jobs env self test_size d counts ns st) =
  Nat.max (Z.to_nat test_size) (total_count counts).
Proof.
  intros Hl. unfold generate_jobs, generate_plan.
  rewrite plan_jobs_length, length_app, partition_plan_length, filler_plan_length
    by assumption. lia.
Qed.

(** X13.  In a run that reaches the executor, [generate] submits
    [test_size] jobs when the partition pass submitted at most that many,
    and as many as the partition pass submitted otherwise: the larger of
    the two numbers.  A returned dataset has at most that many rows, and
    exactly that many when every job returns a row. *)
Theorem generate_job_total env self test_size distributions with_debugging_logs
    is_async raise_exceptions run_config counts ns st :
  let d := default DEFAULT_DISTRIBUTION distributions in
  let r := TestsetGenerator.generate env self test_size distributions
             with_debugging_logs is_async raise_exceptions run_config st in
  let total := Nat.max (Z.to_nat test_size) (total_count counts) in
  check_if_sum_is_close (TestsetGenerator.values d) f1_0 3 = true ->
  get_random_nodes env test_size = Ok ns ->
  length ns = Z.to_nat test_size ->
  counts_of test_size d counts ->
  Forall (fun n => n <= test_size) counts ->
  length (submitted (trace_of r)) = total /\
  (forall ds, result_of r = Ok ds -> (length (test_data ds) <= total)%nat) /\
  ((forall i job, exists row, evolve env i job = Returns (Row row)) ->
   exists ds, result_of r = Ok ds /\ length (test_data ds) = total).
Proof.
  intros d r total Hvalid Hnodes Hlen Hcounts Hbound.
  pose proof (generate_run env self test_size distributions with_debugging_logs
                is_async raise_exceptions run_config counts ns st
                Hvalid Hnodes Hlen Hcounts Hbound) as Hrun.
  fold d in Hrun. fold r in Hrun.
  assert (Hjobs : length (generate_jobs env self test_size d counts ns st) = total).
  { apply generate_jobs_length. eapply Forall2_length, Hcounts. }
  split; [|split].
  - unfold r.
    rewrite (generate_submits env self test_size distributions with_debugging_logs
               is_async raise_exceptions run_config counts ns st
               Hvalid Hnodes Hlen Hcounts Hbound). exact Hjobs.
  - intros ds Hds. unfold result_of in Hds. rewrite Hrun in Hds.
    destruct (Executor.run _ _ _ _) as [rows|e] eqn:Hr; simpl in Hds; [|discriminate].
    injection Hds as <-. simpl.
    pose proof (keep_rows_length rows). apply run_length in Hr. lia.
  - intros Hrows.
    destruct (run_all_rows env (default true raise_exceptions)
                (generate_jobs env self test_size d counts ns st) 0%nat Hrows)
      as (rows & Hr & Hkeep).
    exists {| test_data := keep_rows rows |}. unfold result_of. rewrite Hrun, Hr. simpl.
    split; [reflexivity|]. rewrite Hkeep. apply run_length in Hr. lia.
Qed.

Lemma generate_job_total_witness :
  length (submitted (trace_of (TestsetGenerator.generate example_env example_generator 3
                                 (Some halves) None None None None example_store))) =
  Nat.max (Z.to_nat 3) (total_count [2; 2]).
Proof.
  apply (generate_job_total example_env example_generator 3 (Some halves)
           None None None None [2; 2] (seq 0 3) example_store).
  - vm_compute. reflexivity.
  - reflexivity.
  - reflexivity.
  - repeat constructor.
  - repeat constructor; lia.
Defined.

Lemma partition_plan_key distributions counts r i :
  In (r, i) (partition_plan distributions counts) -> r ∈ TestsetGenerator.keys distributions.
Proof.
  unfold partition_plan. rewrite in_flat_map.
  intros ([[r' p] n] & Hin & Hri). simpl in Hri.
  apply list_elem_of_In, list_elem_of_fmap in Hri as (i' & Heq & _).
  injection Heq as -> ->.
  apply list_elem_of_In, elem_of_zip_l in Hin.
  unfold TestsetGenerator.keys. apply list_elem_of_fmap. exists (r', p). split; [reflexivity|exact Hin].
Qed.

Lemma partition_plan_below_total distributions counts r i :
  In (r, i) (partition_plan distributions counts) -> (i < total_count counts)%nat.
Proof.
  intros Hin.
  assert (Hb : Forall (fun n => n <= Z.of_nat (total_count counts)) counts).
  { apply List.Forall_forall. intros n Hn. pose proof (total_count_bound counts n Hn). lia. }
  pose proof (partition_plan_seed distributions counts _ r i Hb Hin). lia.
Qed.

Lemma filler_plan_key env test_size distributions total r i :
  distributions <> [] ->
  In (r, i) (filler_plan env test_size distributions total) ->
  r ∈ TestsetGenerator.keys distributions.
Proof.
  intros Hne. unfold filler_plan.
  destruct (Z.of_nat total <=? test_size); [|contradiction].
  intros Hin. apply list_elem_of_In, elem_of_zip_l in Hin. simpl in Hin.
  unfold picks in Hin. apply list_elem_of_fmap in Hin as (j & -> & _).
  apply list_elem_of_lookup_total_2. apply Nat.mod_upper_bound.
  unfold TestsetGenerator.keys. rewrite length_fmap.
  destruct distributions; [congruence|simpl; lia].
Qed.

Lemma filler_plan_seeds env test_size distributions total :
  snd <$> filler_plan env test_size distributions total =
  seq total (length (filler_plan env test_size distributions total)).
Proof.
  rewrite filler_plan_length. unfold filler_plan.
  destruct (Z.leb_spec (Z.of_nat total) test_size).
  - rewrite snd_zip; [reflexivity|]. rewrite picks_length, length_seq. lia.
  - replace (Z.to_nat (test_size - Z.of_nat total)) with 0%nat by lia. reflexivity.
Qed.

(** X14.  In a run that reaches the executor, every submitted job runs a
    strategy of the mapping.  The filler jobs come after the partition
    jobs and take the seed positions that follow the partition total, one
    each, in order, up to [test_size - 1]; no partition job reads any of
    those, so a filler job never shares its seed bundle with another job. *)
Theorem filler_jobs_have_their_own_seeds env self test_size distributions
    with_debugging_logs is_async raise_exceptions run_config counts ns st :
  let d := default DEFAULT_DISTRIBUTION distributions in
  let r := TestsetGenerator.generate env self test_size distributions
             with_debugging_logs is_async raise_exceptions run_config st in
  check_if_sum_is_close (TestsetGenerator.values d) f1_0 3 = true ->
  get_random_nodes env test_size = Ok ns ->
  length ns = Z.to_nat test_size ->
  counts_of test_size d counts ->
  Forall (fun n => n <= test_size) counts ->
  exists main filler,
    submitted (trace_of r) = main ++ filler /\
    length main = total_count counts /\
    length filler = Z.to_nat (test_size - Z.of_nat (total_count counts)) /\
    job_seed <$> filler = seq (total_count counts) (length filler) /\
    Forall (fun job => (job_seed job < total_count counts)%nat) main /\
    Forall (fun job => job_evolution job ∈ TestsetGenerator.keys d) (main ++ filler).
Proof.
  intros d r Hvalid Hnodes Hlen Hcounts Hbound.
  pose proof (validated_nonempty d Hvalid) as Hne.
  set (st' := init_all self (TestsetGenerator.keys d) st).
  exists (plan_jobs st' (seeds ns) (partition_plan d counts)),
         (plan_jobs st' (seeds ns) (filler_plan env test_size d (total_count counts))).
  split; [|split; [|split; [|split; [|split]]]].
  - unfold r.
    rewrite (generate_submits env self test_size distributions with_debugging_logs
               is_async raise_exceptions run_config counts ns st
               Hvalid Hnodes Hlen Hcounts Hbound).
    fold d. unfold generate_jobs, generate_plan. apply plan_jobs_app.
  - rewrite plan_jobs_length. apply partition_plan_length. eapply Forall2_length, Hcounts.
  - rewrite plan_jobs_length. apply filler_plan_length.
  - rewrite plan_jobs_length. rewrite <- filler_plan_seeds.
    unfold plan_jobs. rewrite <- list_fmap_compose. reflexivity.
  - apply List.Forall_forall. intros job Hin. unfold plan_jobs in Hin.
    apply list_elem_of_In, list_elem_of_fmap in Hin as ([ev i] & -> & Hp).
    apply list_elem_of_In in Hp. simpl. eapply partition_plan_below_total, Hp.
  - rewrite <- plan_jobs_app. apply List.Forall_forall. intros job Hin. unfold plan_jobs in Hin.
    apply list_elem_of_In, list_elem_of_fmap in Hin as ([ev i] & -> & Hp).
    apply list_elem_of_In, in_app_or in Hp as [Hp|Hp]; simpl.
    + eapply partition_plan_key, Hp.
    + eapply filler_plan_key; eassumption.
Qed.

Lemma filler_jobs_have_their_own_seeds_witness :
  exists main filler,
    submitted (trace_of (TestsetGenerator.generate example_env example_generator 10 None
                           None None None None example_store)) = main ++ filler /\
    length main = 9%nat /\
    length filler = 1%nat /\
    job_seed <$> filler = seq 9 (length filler) /\
    Forall (fun job => (job_seed job < 9)%nat) main /\
    Forall (fun job => job_evolution job ∈ TestsetGenerator.keys DEFAULT_DISTRIBUTION)
      (main ++ filler).
Proof.
  apply (filler_jobs_have_their_own_seeds example_env example_generator 10 None
           None None None None [5; 2; 2] (seq 0 10) example_store).
  - vm_compute. reflexivity.
  - reflexivity.
  - reflexivity.
  - repeat constructor.
  - repeat constructor; lia.
Defined.

(** ** The partition pass, strategy by strategy *)

Lemma filter_fmap {A B} (f : B -> bool) (g : A -> B) (l : list A) :
  List.filter f (g <$> l) = g <$> List.filter (fun x => f (g x)) l.
Proof.
  induction l as [|x l IH]; [reflexivity|].
  rewrite fmap_cons. cbn [List.filter].
  destruct (f (g x)); rewrite IH; reflexivity.
Qed.

Lemma filter_batch (r r' : evolution_ref) (l : list nat) :
  List.filter (fun p : evolution_ref * nat => Nat.eqb p.1 r) (pair r' <$> l) =
  if Nat.eqb r' r then pair r' <$> l else [].
Proof.
  induction l as [|x l IH]; [destruct (Nat.eqb r' r); reflexivity|].
  rewrite fmap_cons. cbn [List.filter fst]. rewrite IH.
  destruct (Nat.eqb r' r); reflexivity.
Qed.

Lemma partition_plan_cons r p (d : Distributions) n counts :
  partition_plan ((r, p) :: d) (n :: counts) = (pair r <$> range n) ++ partition_plan d counts.
Proof. reflexivity. Qed.

Lemma filter_plan_other r (d : Distributions) : forall counts,
  r ∉ TestsetGenerator.keys d ->
  List.filter (fun p : evolution_ref * nat => Nat.eqb p.1 r) (partition_plan d counts) = [].
Proof.
  induction d as [|[r' p'] d IH]; intros [|n counts] Hr; try reflexivity.
  rewrite partition_plan_cons, List.filter_app, filter_batch.
  apply not_elem_of_cons in Hr as [Hne Hr]. simpl in Hne.
  destruct (Nat.eqb_spec r' r) as [->|_]; [congruence|].
  apply IH, Hr.
Qed.

Lemma filter_plan_own (d : Distributions) : forall counts k r p n,
  NoDup (TestsetGenerator.keys d) ->
  d !! k = Some (r, p) -> counts !! k = Some n ->
  List.filter (fun p : evolution_ref * nat => Nat.eqb p.1 r) (partition_plan d counts) =
  pair r <$> range n.
Proof.
  induction d as [|[r' p'] d IH]; intros [|n' counts] k r p n Hnd Hd Hc;
    try (destruct k; discriminate).
  apply NoDup_cons in Hnd as [Hnotin Hnd].
  rewrite partition_plan_cons, List.filter_app, filter_batch.
  destruct k as [|k]; simpl in Hd, Hc.
  - injection Hd as -> ->. injection Hc as ->. rewrite Nat.eqb_refl.
    rewrite (filter_plan_other r d counts Hnotin). apply app_nil_r.
  - assert (Hin : r ∈ TestsetGenerator.keys d).
    { unfold TestsetGenerator.keys. apply list_elem_of_fmap. exists (r, p).
      split; [reflexivity|]. eapply list_elem_of_lookup_2, Hd. }
    destruct (Nat.eqb_spec r' r) as [->|_]; [contradiction|].
    apply (IH counts k r p n Hnd Hd Hc).
Qed.

(** X15.  In the partition pass, with distinct strategies as keys, the
    jobs of each strategy are exactly [round(probability * test_size)] in
    number (none when that is negative), read the seed positions 0, 1, 2,
    ... in order, and are named after the strategy's class and the seed
    position.  Every strategy with a job therefore reads seed 0. *)
Theorem partition_batches_start_at_zero current_nodes test_size distributions counts
    exec st k r p n :
  let mine := List.filter (fun job => Nat.eqb (job_evolution job) r)
                (submitted (trace_of (TestsetGenerator.partition_pass test_size
                                        distributions current_nodes exec st))) in
  counts_of test_size distributions counts ->
  Forall (fun n => (Z.to_nat n <= length current_nodes)%nat) counts ->
  NoDup (TestsetGenerator.keys distributions) ->
  distributions !! k = Some (r, p) ->
  counts !! k = Some n ->
  job_count p test_size = Ok n /\
  job_seed <$> mine = seq 0 (Z.to_nat n) /\
  job_name <$> mine =
    (fun i => Evolution.class_name (st !!! r) +:+ "-" +:+ pretty i) <$> seq 0 (Z.to_nat n).
Proof.
  intros mine Hcounts Hbound Hnd Hd Hc. split.
  - unfold counts_of in Hcounts.
    destruct (Forall2_lookup_l _ _ _ _ _ Hcounts Hd) as (n' & Hn' & Hjc).
    rewrite Hc in Hn'. injection Hn' as <-. exact Hjc.
  - unfold mine.
    rewrite (partition_pass_ok current_nodes test_size distributions counts exec st
               Hcounts Hbound).
    unfold trace_of. cbn [snd]. rewrite submitted_jobs. unfold plan_jobs.
    rewrite filter_fmap. cbn [TestsetGenerator.job_for job_evolution].
    rewrite (filter_plan_own distributions counts k r p n Hnd Hd Hc).
    rewrite <- !list_fmap_compose. unfold range. split.
    + induction (seq 0 (Z.to_nat n)) as [|i l IH]; simpl; [reflexivity|]. f_equal. exact IH.
    + apply list_fmap_ext. intros i x _. reflexivity.
Qed.

Lemma partition_batches_start_at_zero_witness :
  let mine := List.filter (fun job => Nat.eqb (job_evolution job) reasoning)
                (submitted (trace_of (TestsetGenerator.partition_pass 3 halves
                                        (seeds [7; 8; 9]%nat) example_exec example_store))) in
  job_count f0_5 3 = Ok 2 /\
  job_seed <$> mine = seq 0 (Z.to_nat 2) /\
  job_name <$> mine =
    (fun i => Evolution.class_name (example_store !!! reasoning) +:+ "-" +:+ pretty i) <$>
      seq 0 (Z.to_nat 2).
Proof.
  apply (partition_batches_start_at_zero (seeds [7; 8; 9]%nat) 3 halves [2; 2]
           example_exec example_store 1 reasoning f0_5 2).
  - repeat constructor.
  - repeat constructor; simpl; lia.
  - apply (bool_decide_unpack _). vm_compute. exact I.
  - reflexivity.
  - reflexivity.
Defined.

Lemma batch_runs_out current_nodes evolution m : forall a exec total st,
  (a <= length current_nodes)%nat ->
  (length current_nodes < a + m)%nat ->
  for_each (seq a m)
    (fun i '(exec, total_evolutions) =>
       exec ← TestsetGenerator.submit_evolve current_nodes evolution i exec;
       mret (exec, S total_evolutions))
    (exec, total) st =
  (Raise (IndexError [text "list index out of range"]), st,
   exec_submit <$>
     plan_jobs st current_nodes (pair evolution <$> seq a (length current_nodes - a))).
Proof.
  induction m as [|m IH]; intros a exec total st Hle Hlt; [lia|].
  cbn [seq for_each].
  destruct (decide (a = length current_nodes)) as [->|Hne].
  - erewrite bind_Raise.
    + rewrite Nat.sub_diag. reflexivity.
    + erewrite bind_Raise; [reflexivity|]. apply submit_evolve_out_of_range. lia.
  - erewrite bind_run; cycle 1.
    + erewrite bind_run; [|apply submit_evolve_ok; lia|reflexivity]. reflexivity.
    + apply IH; lia.
    + replace (length current_nodes - a)%nat with (S (length current_nodes - S a)) by lia.
      cbn [seq fmap list_fmap app]. rewrite app_nil_r. reflexivity.
Qed.

Lemma partition_loop_runs_out current_nodes test_size r p n post pre counts :
  counts_of test_size pre counts ->
  Forall (fun n => (Z.to_nat n <= length current_nodes)%nat) counts ->
  job_count p test_size = Ok n ->
  (length current_nodes < Z.to_nat n)%nat ->
  forall exec total st,
  for_each (pre ++ (r, p) :: post)
    (fun '(evolution, probability) '(exec, total_evolutions) =>
       x ← lift (float_mul_int probability test_size);
       n ← lift (round x);
       for_each (range n)
         (fun i '(exec, total_evolutions) =>
            exec ← TestsetGenerator.submit_evolve current_nodes evolution i exec;
            mret (exec, S total_evolutions))
         (exec, total_evolutions))
    (exec, total) st =
  (Raise (IndexError [text "list index out of range"]), st,
   exec_submit <$>
     plan_jobs st current_nodes
       (partition_plan pre counts ++ (pair r <$> seq 0 (length current_nodes)))).
Proof.
  intros Hcounts. induction Hcounts as [|[evolution probability] m ds ns Hm _ IH];
    intros Hbound Hn Hlt exec total st.
  - cbn [app for_each]. unfold job_count in Hn.
    destruct (float_mul_int p test_size) as [x|] eqn:Hx; [|discriminate].
    erewrite bind_Raise; [reflexivity|]. cbv beta iota.
    etransitivity.
    { eapply bind_run; [unfold lift; rewrite ?Hx; reflexivity|].
      eapply bind_run; [unfold lift; rewrite Hn; reflexivity|].
      unfold range. apply batch_runs_out; lia. }
    cbn [app]. rewrite Nat.sub_0_r. reflexivity.
  - apply Forall_cons in Hbound as [Hm_le Hbound].
    simpl in Hm. unfold job_count in Hm.
    destruct (float_mul_int probability test_size) as [x|] eqn:Hx; [|discriminate].
    cbn [app for_each].
    erewrite bind_run; cycle 1.
    + erewrite bind_run; [|unfold lift; rewrite Hx; reflexivity|].
      2:{ erewrite bind_run; [|unfold lift; rewrite Hm; reflexivity|].
          2:{ unfold range. apply batch_ok. simpl. lia. }
          reflexivity. }
      reflexivity.
    + apply (IH Hbound Hn Hlt).
    + cbn [app]. rewrite partition_plan_cons.
      rewrite <- !app_assoc, !plan_jobs_app, !fmap_app. reflexivity.
Qed.

(** X16.  When a strategy's count exceeds the number of seed bundles, the
    partition pass raises [IndexError] in that strategy's batch: the
    earlier strategies' jobs and one job of that strategy per seed bundle
    have been submitted by then, nothing of the later strategies. *)
Theorem partition_runs_out_of_seeds current_nodes test_size pre r p post counts n exec st :
  counts_of test_size pre counts ->
  Forall (fun n => (Z.to_nat n <= length current_nodes)%nat) counts ->
  job_count p test_size = Ok n ->
  (length current_nodes < Z.to_nat n)%nat ->
  TestsetGenerator.partition_pass test_size (pre ++ (r, p) :: post) current_nodes exec st =
  (Raise (IndexError [text "list index out of range"]), st,
   exec_submit <$>
     plan_jobs st current_nodes
       (partition_plan pre counts ++ (pair r <$> seq 0 (length current_nodes)))).
Proof.
  intros Hcounts Hbound Hn Hlt. unfold TestsetGenerator.partition_pass.
  apply (partition_loop_runs_out current_nodes test_size r p n post pre counts
           Hcounts Hbound Hn Hlt).
Qed.

Lemma partition_runs_out_of_seeds_witness :
  TestsetGenerator.partition_pass 1 ([] ++ (simple, float_of_scaled 2 0) ::
                                       [(reasoning, float_of_scaled (-1) 0)])
    (seeds [0%nat]) example_exec example_store =
  (Raise (IndexError [text "list index out of range"]), example_store,
   exec_submit <$>
     plan_jobs example_store (seeds [0%nat])
       (partition_plan [] [] ++ (pair simple <$> seq 0 (length (seeds [0%nat]))))).
Proof.
  apply (partition_runs_out_of_seeds (seeds [0%nat]) 1 [] simple (float_of_scaled 2 0)
           [(reasoning, float_of_scaled (-1) 0)] [] 2 example_exec example_store).
  - constructor.
  - constructor.
  - reflexivity.
  - simpl. lia.
Defined.

(** ** The document entry points, the constructor and the export *)


(** X18.  [with_openai] without a docstore builds an in-memory store whose
    extractor runs on the generator model, so the docstore assertions of
    [save] and [adapt] pass on the new generator.  With a docstore passed
    in, that store is used as it is: the extractor [with_openai] creates is
    not installed in it, and [save] fails on "Extractor is not set" when the
    store has none.  The three models are the same in both cases. *)
Theorem with_openai_docstore generator_llm critic_llm embeddings chunk_size :
  let fresh := with_openai generator_llm critic_llm embeddings None chunk_size in
  docstore_ready fresh /\
  extractor (TestsetGenerator.docstore fresh) =
    Some (new_keyphraseExtractor (TestsetGenerator.generator_llm fresh)) /\
  (forall cache_dir st,
     TestsetGenerator.save fresh [] cache_dir st = (Ok tt, st, [extractor_save cache_dir])) /\
  (forall docstore,
     let given := with_openai generator_llm critic_llm embeddings (Some docstore) chunk_size in
     TestsetGenerator.docstore given = docstore /\
     TestsetGenerator.generator_llm given = TestsetGenerator.generator_llm fresh /\
     TestsetGenerator.critic_llm given = TestsetGenerator.critic_llm fresh /\
     TestsetGenerator.embeddings given = TestsetGenerator.embeddings fresh /\
     (is_InMemoryDocumentStore docstore = true -> extractor docstore = None ->
      forall evolutions cache_dir st,
        TestsetGenerator.save given evolutions cache_dir st =
        (Raise (AssertionError [text "Extractor is not set"]), st, []))).
Proof.
  intros fresh.
  assert (Hready : docstore_ready fresh).
  { split; [reflexivity|]. eexists. reflexivity. }
  split; [exact Hready|]. split; [reflexivity|]. split.
  - intros cache_dir st. apply (save_ok fresh cache_dir st [] Hready). constructor.
  - intros docstore given. repeat split.
    intros Hmem Hext evolutions cache_dir st. unfold TestsetGenerator.save.
    erewrite bind_run; [|apply assert_true; exact Hmem|].
    2:{ erewrite bind_Raise; [reflexivity|]. apply assert_false.
        unfold given, with_openai. cbn. rewrite Hext. reflexivity. }
    reflexivity.
Qed.

Lemma with_openai_docstore_witness :
  TestsetGenerator.save
    (with_openai None None None
       (Some {| is_InMemoryDocumentStore := true; extractor := None |}) None)
    [simple] None example_store =
  (Raise (AssertionError [text "Extractor is not set"]), example_store, []).
Proof.
  apply (proj2 (proj2 (proj2 (with_openai_docstore None None None None)))
           {| is_InMemoryDocumentStore := true; extractor := None |}); reflexivity.
Defined.

Lemma to_records_rows rows : forall data_samples,
  TestDatasetMethods.to_records_from (Row <$> rows) data_samples =
  Ok (data_samples ++
      ((fun row => <["episode_done" := Bool true]> (dict_of_row row)) <$> rows)).
Proof.
  induction rows as [|row rows IH]; intros data_samples.
  - simpl. rewrite app_nil_r. reflexivity.
  - rewrite fmap_cons. cbn [TestDatasetMethods.to_records_from dict].
    rewrite IH, <- app_assoc. reflexivity.
Qed.

Lemma to_records_nan vs : forall data_samples,
  In NaN vs ->
  TestDatasetMethods.to_records_from vs data_samples =
  Raise (Exception [text "TypeError: 'float' object is not iterable"]).
Proof.
  induction vs as [|v vs IH]; intros data_samples Hin; [contradiction|].
  destruct v as [row|]; cbn [TestDatasetMethods.to_records_from dict]; [|reflexivity].
  apply IH. destruct Hin as [H|H]; [discriminate|exact H].
Qed.

Lemma rows_of_values vs :
  ~ In NaN vs -> exists rows, vs = Row <$> rows.
Proof.
  induction vs as [|v vs IH]; intros H; [exists []; reflexivity|].
  destruct v as [row|]; [|exfalso; apply H; left; reflexivity].
  destruct IH as [rows ->]; [intros Hin; apply H; right; exact Hin|].
  exists (row :: rows). reflexivity.
Qed.

(** X19.  Every dataset that [generate] returns converts to records
    without error: one record per row, in order, each being the row's own
    fields with [episode_done] set to true (replacing a field of that name
    if the row had one), and [to_pandas] and [to_dataset] are built from
    those same records.  A dataset holding the NaN sentinel cannot be
    converted: the conversion raises. *)
Theorem generated_dataset_exports env self test_size distributions with_debugging_logs
    is_async raise_exceptions run_config st ds :
  result_of (TestsetGenerator.generate env self test_size distributions
               with_debugging_logs is_async raise_exceptions run_config st) = Ok ds ->
  (exists rows,
     test_data ds = Row <$> rows /\
     let records := (fun row => <["episode_done" := Bool true]> (dict_of_row row)) <$> rows in
     TestDatasetMethods._to_records ds = Ok records /\
     TestDatasetMethods.to_pandas ds = Ok (TestDatasetMethods.DataFrame_from_records records) /\
     TestDatasetMethods.to_dataset ds = Ok (TestDatasetMethods.Dataset_from_list records) /\
     length records = length (test_data ds) /\
     Forall (fun record => record !! "episode_done" = Some (Bool true)) records) /\
  (forall other, In NaN (test_data other) ->
     TestDatasetMethods._to_records other =
     Raise (Exception [text "TypeError: 'float' object is not iterable"])).
Proof.
  intros Hds. split.
  - destruct (generate_returns_kept_rows env self test_size distributions
                with_debugging_logs is_async raise_exceptions run_config st ds Hds)
      as (raw & _ & Hkept).
    destruct (rows_of_values (test_data ds)) as [rows Hrows].
    { rewrite Hkept. apply keep_rows_no_nan. }
    exists rows. split; [exact Hrows|]. cbv zeta.
    assert (Hrec : TestDatasetMethods._to_records ds =
                   Ok ((fun row => <["episode_done" := Bool true]> (dict_of_row row)) <$> rows)).
    { unfold TestDatasetMethods._to_records. rewrite Hrows, to_records_rows. reflexivity. }
    split; [exact Hrec|].
    unfold TestDatasetMethods.to_pandas, TestDatasetMethods.to_dataset. rewrite Hrec.
    split; [reflexivity|]. split; [reflexivity|]. split.
    + rewrite Hrows, !length_fmap. reflexivity.
    + apply List.Forall_forall. intros record Hin.
      apply list_elem_of_In, list_elem_of_fmap in Hin as (row & -> & _).
      apply lookup_insert_eq.
  - intros other Hin. unfold TestDatasetMethods._to_records. apply to_records_nan, Hin.
Qed.

Lemma generated_dataset_exports_witness :
  exists rows,
    [Row {| question := "SimpleEvolution-0"; answer := ""; contexts := []; metadata := [] |}]
      = Row <$> rows /\
    let records := (fun row => <["episode_done" := Bool true]> (dict_of_row row)) <$> rows in
    TestDatasetMethods._to_records
      {| test_data := [Row {| question := "SimpleEvolution-0"; answer := "";
                              contexts := []; metadata := [] |}] |} = Ok records /\
    TestDatasetMethods.to_pandas
      {| test_data := [Row {| question := "SimpleEvolution-0"; answer := "";
                              contexts := []; metadata := [] |}] |} =
      Ok (TestDatasetMethods.DataFrame_from_records records) /\
    TestDatasetMethods.to_dataset
      {| test_data := [Row {| question := "SimpleEvolution-0"; answer := "";
                              contexts := []; metadata := [] |}] |} =
      Ok (TestDatasetMethods.Dataset_from_list records) /\
    length records = 1%nat /\
    Forall (fun record => record !! "episode_done" = Some (Bool true)) records.
Proof.
  apply (proj1 (generated_dataset_exports example_env example_generator 1 (Some all_simple)
                  None None None None example_store
                  {| test_data := [Row {| question := "SimpleEvolution-0"; answer := "";
                                          contexts := []; metadata := [] |}] |}
                  ltac:(vm_compute; reflexivity))).
Defined.
